(** * Workplace-search MCP gateway (src/mcp.py): model and verification

    The development embeds the authentication functions, the scope checks,
    the request model and the [WorkplaceSearchService] aggregator of
    [src/mcp.py] and proves the properties stated for them.

    Conventions.
    - Python [str] is [string]; [int] is [Z]; [datetime] is a [Z] count of
      microseconds; a [List[...]] is a [list].
    - A [float] score is modelled by the rational it denotes ([Q]): the
      source only compares scores, and the order of finite floats is the
      order of the rationals they denote.  NaN scores are outside the model.
    - [async def] functions are run to completion in program order:
      every [await] of the source is sequential, so a coroutine is a
      computation in the monad [M] below. *)

From Stdlib Require Import String Ascii List ZArith QArith Bool Lia.
From Stdlib Require Import Sorted Permutation DecimalString.
Import ListNotations.

Local Open Scope string_scope.
Local Open Scope Z_scope.

(* ===================================================================== *)
(** ** Python built-ins used by the source                                *)
(* ===================================================================== *)

Module Py.

(** [x in l] for a list of strings. *)
Definition contains (x : string) (l : list string) : bool :=
  existsb (String.eqb x) l.

(** [s.startswith(p)]. *)
Definition startswith (s p : string) : bool := String.prefix p s.

(** [any(f(x) for x in l)]. *)
Definition any {A : Type} (f : A -> bool) (l : list A) : bool := existsb f l.

(** [l[:k]]: a negative [k] counts from the end of the list. *)
Definition slice_to {A : Type} (l : list A) (k : Z) : list A :=
  if 0 <=? k then firstn (Z.to_nat k) l
  else firstn (Z.to_nat (Z.of_nat (length l) + k)) l.

(** [str(n)] for an [int]. *)
Definition str (n : Z) : string := NilZero.string_of_int (Z.to_int n).

(** [d.get(key, default)] on an optional entry. *)
Definition get_default {A : Type} (entry : option A) (default : A) : A :=
  match entry with Some v => v | None => default end.

Section Sort.
Context {A : Type}.
Variable key : A -> Q.

(** [l.sort(key=key, reverse=True)].  The built-in sort is stable, and
    with [reverse=True] elements with equal keys keep their original
    order.  [insert_desc x l] puts [x], which precedes every element of
    the already sorted [l] in the original list, in front of the first
    element whose key is not greater than the key of [x]. *)
Fixpoint insert_desc (x : A) (l : list A) : list A :=
  match l with
  | [] => [x]
  | y :: l' =>
      if Qle_bool (key y) (key x) then x :: y :: l'
      else y :: insert_desc x l'
  end.

Fixpoint sort_desc (l : list A) : list A :=
  match l with
  | [] => []
  | x :: l' => insert_desc x (sort_desc l')
  end.
End Sort.

End Py.

(* ===================================================================== *)
(** ** Exceptions and the computation monad                               *)
(* ===================================================================== *)

Module Mcp.

(** The exception classes the source raises or catches.  All of them are
    subclasses of [Exception], the class the [except Exception] clauses of
    the source catch; what is not an [Exception] (task cancellation, an
    interrupt) is outside the model. *)
Inductive PyExc : Type :=
| HTTPException (status_code : Z) (detail : string)
| JWTError (msg : string)
| ValidationError (msg : string)
| TypeError (msg : string)
| RequestError (msg : string)      (* httpx transport failure *)
| OtherException (msg : string).

(** [str(e)] as it appears in log lines. *)
Definition exc_str (e : PyExc) : string :=
  match e with
  | HTTPException _ d => d
  | JWTError m | ValidationError m | TypeError m
  | RequestError m | OtherException m => m
  end.

Definition is_HTTPException (e : PyExc) : bool :=
  match e with HTTPException _ _ => true | _ => false end.

Definition is_JWTError (e : PyExc) : bool :=
  match e with JWTError _ => true | _ => false end.

Inductive outcome (A : Type) : Type :=
| Return (a : A)
| Raise (e : PyExc).
Arguments Return {A} a.
Arguments Raise {A} e.

(** A computation over a state [S] that returns a value or raises.  The
    state reached when an exception is raised is kept: Python does not roll
    back effects. *)
Definition SE (S A : Type) : Type := S -> outcome A * S.

Definition ret {S A : Type} (a : A) : SE S A := fun s => (Return a, s).

Definition raise {S A : Type} (e : PyExc) : SE S A := fun s => (Raise e, s).

Definition bind {S A B : Type} (c : SE S A) (k : A -> SE S B) : SE S B :=
  fun s =>
    match c s with
    | (Return a, s') => k a s'
    | (Raise e, s') => (Raise e, s')
    end.

Declare Scope se_scope.
Delimit Scope se_scope with se.
Notation "x <- c1 ;; c2" := (bind c1 (fun x => c2))
  (at level 61, c1 at next level, right associativity) : se_scope.
Notation "c1 ;; c2" := (bind c1 (fun _ => c2))
  (at level 61, right associativity) : se_scope.
Local Open Scope se_scope.

(** [try: body except ...: handler].  The handler receives the exception and
    decides by its class; a class no clause names is raised again by the
    handler. *)
Definition try_except {S A : Type} (body : SE S A) (handler : PyExc -> SE S A)
  : SE S A :=
  fun s =>
    match body s with
    | (Return a, s') => (Return a, s')
    | (Raise e, s') => handler e s'
    end.

(** [for x in l: acc = body(acc, x)], for a loop that updates local
    variables [acc]. *)
Fixpoint for_each {S A B : Type} (l : list B) (acc : A)
  (body : A -> B -> SE S A) : SE S A :=
  match l with
  | [] => ret acc
  | x :: l' => acc' <- body acc x ;; for_each l' acc' body
  end.

(* ===================================================================== *)
(** ** Pydantic models                                                    *)
(* ===================================================================== *)

Record UserClaims : Type := mkUserClaims {
  user_id : string;
  email : string;
  scopes : list string;
  exp : Z
}.

Record WorkplaceSearchRequest : Type := mkWorkplaceSearchRequest {
  query : string;
  sources : list string;
  max_results : Z;
  include_content : bool
}.

Record SearchResult : Type := mkSearchResult {
  title : string;
  source : string;
  url : string;
  snippet : string;
  score : Q;
  last_modified : option Z;
  content : option string
}.

(** The fields [query] and [sources] of the response are
    [response_query] and [response_sources] here, apart from the request's. *)
Record WorkplaceSearchResponse : Type := mkWorkplaceSearchResponse {
  results : list SearchResult;
  total_count : Z;
  response_query : string;
  response_sources : list string;
  execution_time_ms : Z
}.

(** The keyword arguments a caller may pass to [WorkplaceSearchRequest];
    [None] is an omitted keyword. *)
Record SearchArguments : Type := mkSearchArguments {
  arg_query : option string;
  arg_sources : option (list string);
  arg_max_results : option Z;
  arg_include_content : option bool
}.

(** [Field(default=10, ge=1, le=50)]: the value must satisfy both bounds. *)
Definition ge_le (lo hi v : Z) : bool := (lo <=? v) && (v <=? hi).

(** The constructor of [WorkplaceSearchRequest], called with keyword
    arguments: [query] is required ([Field(...)]), the other fields have
    defaults, and [max_results] is validated against [ge=1, le=50]. *)
Definition WorkplaceSearchRequest_init {S : Type} (a : SearchArguments)
  : SE S WorkplaceSearchRequest :=
  match arg_query a with
  | None => raise (ValidationError "query: Field required")
  | Some q =>
      let k := Py.get_default (arg_max_results a) 10 in
      if ge_le 1 50 k then
        ret {| query := q;
               sources := Py.get_default (arg_sources a) ["google_drive"; "notion"];
               max_results := k;
               include_content := Py.get_default (arg_include_content a) true |}
      else if k <? 1 then
        raise (ValidationError "max_results: Input should be greater than or equal to 1")
      else
        raise (ValidationError "max_results: Input should be less than or equal to 50")
  end.

(** The decoded JWT payload as [verify_descope_token] reads it with
    [payload.get]: a missing key is [None]. *)
Record JWTPayload : Type := mkJWTPayload {
  sub : option string;
  payload_email : option string;
  permissions : option (list string);
  payload_exp : option Z
}.

(** [UserClaims(user_id=..., email=..., scopes=..., exp=...)]: [str] and
    [int] fields reject [None]. *)
Definition UserClaims_init {S : Type} (uid : option string) (em : option string)
  (sc : list string) (ex : option Z) : SE S UserClaims :=
  match uid, em, ex with
  | Some u, Some m, Some x =>
      ret {| user_id := u; email := m; scopes := sc; exp := x |}
  | None, _, _ => raise (ValidationError "user_id: Input should be a valid string")
  | _, None, _ => raise (ValidationError "email: Input should be a valid string")
  | _, _, None => raise (ValidationError "exp: Input should be a valid integer")
  end.

(** [MCPToolCall]: the tool name and its arguments. *)
Record MCPToolCall : Type := mkMCPToolCall {
  call_name : string;
  arguments : SearchArguments
}.

(** The content blocks [call_tool] puts in an [MCPResponse]. *)
Inductive ContentBlock : Type :=
| TextBlock (text : string)
| ResourceBlock (uri name mimeType text : string).

Record MCPResponse : Type := mkMCPResponse {
  response_content : list ContentBlock;
  isError : bool
}.

(** The [Config] class.  The values read from the process environment are
    fields; the constants are definitions. *)
Record Config : Type := mkConfig {
  DESCOPE_PROJECT_ID : string;
  JWT_SECRET_KEY : string;
  CEQUENCE_GATEWAY_URL : string;
  CEQUENCE_API_KEY : string
}.

Definition DESCOPE_DOMAIN (config : Config) : string :=
  "https://api.descope.com/v1/projects/" ++ DESCOPE_PROJECT_ID config.
Definition JWT_ALGORITHM : string := "HS256".
Definition MCP_SERVER_NAME : string := "workplace-search".
Definition MCP_SERVER_VERSION : string := "1.0.0".

(** The JSON bodies posted to the observability gateway. *)
Inductive AuditPayload : Type :=
| ArgumentsPayload (a : SearchArguments)
| ResponsePayload (r : WorkplaceSearchResponse)
| EmptyPayload.

Inductive AuditEvent : Type :=
| RequestEvent (timestamp : Z) (uid tool_name : string)
    (request_data : AuditPayload) (server_name server_version : string)
| ResponseEvent (timestamp : Z) (uid tool_name : string)
    (response_data : AuditPayload) (execution_time : Z) (success : bool)
    (server_name server_version : string).

(* ===================================================================== *)
(** ** The gateway                                                        *)
(* ===================================================================== *)

Section Gateway.

(** The world outside the process: the wall clock, the identity provider,
    the JWT library and the observability gateway.  Each is a computation
    on the world state [W]; the network calls may raise. *)
Variable W : Type.
Variable utcnow : W -> Z * W.
Variable descope_get_keys : string -> string -> SE W Z.
Variable jwt_decode : string -> string -> string -> SE W JWTPayload.
Variable cequence_post : string -> string -> AuditEvent -> SE W unit.

(** [int((t1 - t0).total_seconds() * 1000)], a float computation on the
    two clock readings. *)
Variable elapsed_ms : Z -> Z -> Z.

(** [json.dumps(response.dict(), indent=2)]; [None] when the encoder
    meets a value it does not support and raises [TypeError]. *)
Variable json_dumps : WorkplaceSearchResponse -> option string.

Variable config : Config.

(** The process state: the outside world and the lines written through
    [logger]. *)
Record State : Type := mkState {
  world : W;
  log : list string
}.

Definition M (A : Type) : Type := SE State A.

(** An operation on the outside world, run from the process. *)
Definition lift {A : Type} (c : SE W A) : M A :=
  fun s =>
    let (o, w') := c (world s) in
    (o, {| world := w'; log := log s |}).

(** [datetime.utcnow()]. *)
Definition now : SE W Z := fun w => let (t, w') := utcnow w in (Return t, w').

(** [logger.error(line)]. *)
Definition logger_error (line : string) : M unit :=
  fun s => (Return tt, {| world := world s; log := (log s ++ [line])%list |}).

(** *** Authentication functions *)

Definition verify_descope_token (token : string) : M UserClaims :=
  try_except
    (status_code <- lift (descope_get_keys (DESCOPE_DOMAIN config ++ "/keys") token) ;;
     (if negb (status_code =? 200)
      then raise (HTTPException 401 "Invalid token")
      else ret tt) ;;
     payload <- lift (jwt_decode token (JWT_SECRET_KEY config) JWT_ALGORITHM) ;;
     UserClaims_init (sub payload) (payload_email payload)
       (Py.get_default (permissions payload) []) (payload_exp payload))
    (fun e =>
       if is_JWTError e then
         logger_error ("JWT verification failed: " ++ exc_str e) ;;
         raise (HTTPException 401 "Invalid token")
       else raise e).

Definition get_current_user (credentials : string) : M UserClaims :=
  try_except
    (verify_descope_token credentials)
    (fun e =>
       if is_HTTPException e then raise e
       else
         logger_error ("Authentication error: " ++ exc_str e) ;;
         raise (HTTPException 401 "Authentication failed")).

Definition check_scope (required_scope : string) (user : UserClaims)
  : M UserClaims :=
  if negb (Py.contains required_scope (scopes user)) then
    raise (HTTPException 403
             ("Insufficient permissions. Required scope: " ++ required_scope))
  else ret user.

(** *** Cequence client *)

Definition log_request (uid tool_name : string) (request_data : AuditPayload)
  : M unit :=
  try_except
    (lift (timestamp <- now ;;
           cequence_post (CEQUENCE_GATEWAY_URL config ++ "/api/v1/mcp/requests")
             (CEQUENCE_API_KEY config)
             (RequestEvent timestamp uid tool_name request_data
                MCP_SERVER_NAME MCP_SERVER_VERSION)))
    (fun e => logger_error ("Failed to log request to Cequence: " ++ exc_str e)).

Definition log_response (uid tool_name : string) (response_data : AuditPayload)
  (execution_time : Z) (success : bool) : M unit :=
  try_except
    (lift (timestamp <- now ;;
           cequence_post (CEQUENCE_GATEWAY_URL config ++ "/api/v1/mcp/responses")
             (CEQUENCE_API_KEY config)
             (ResponseEvent timestamp uid tool_name response_data
                execution_time success MCP_SERVER_NAME MCP_SERVER_VERSION)))
    (fun e => logger_error ("Failed to log response to Cequence: " ++ exc_str e)).

(** *** Workplace search service *)

(** The two source adapters of [WorkplaceSearchService], which [search]
    reaches through [self].  An adapter takes the query, the user's token
    for the source and the result cap; it talks to the outside world and
    may raise. *)
Record WorkplaceSearchService : Type := mkWorkplaceSearchService {
  search_google_drive : string -> option string -> Z -> SE W (list SearchResult);
  search_notion : string -> option string -> Z -> SE W (list SearchResult)
}.

(** [timedelta(days=n)] in microseconds. *)
Definition days (n : Z) : Z := n * 86400000000.

(** The mock adapters of the source. *)
Definition mock_search_google_drive (q : string) (user_token : option string)
  (limit : Z) : SE W (list SearchResult) :=
  t <- now ;;
  let mock_results :=
    [ {| title := "Document about " ++ q;
         source := "google_drive";
         url := "https://drive.google.com/doc/mock";
         snippet := "This document contains information about " ++ q ++ "...";
         score := 95 # 100;
         last_modified := Some (t - days 1);
         content := Some ("Full content about " ++ q ++ " would be here...") |} ] in
  ret (Py.slice_to mock_results limit).

Definition mock_search_notion (q : string) (user_token : option string)
  (limit : Z) : SE W (list SearchResult) :=
  t <- now ;;
  let mock_results :=
    [ {| title := "Notion page: " ++ q;
         source := "notion";
         url := "https://notion.so/mock-page";
         snippet := "Notion content about " ++ q ++ "...";
         score := 88 # 100;
         last_modified := Some (t - days 2);
         content := Some ("Full Notion content about " ++ q ++ "...") |} ] in
  ret (Py.slice_to mock_results limit).

Definition mock_service : WorkplaceSearchService :=
  {| search_google_drive := mock_search_google_drive;
     search_notion := mock_search_notion |}.

(** The table of mock tokens in [search], and [user_tokens.get(key)]. *)
Definition user_tokens : list (string * string) :=
  [ ("google_drive", "mock_google_token"); ("notion", "mock_notion_token") ].

Fixpoint dict_get (d : list (string * string)) (key : string) : option string :=
  match d with
  | [] => None
  | (k, v) :: d' => if String.eqb k key then Some v else dict_get d' key
  end.

(** The body of the [for source in request.sources] loop, with its
    [try]/[except Exception]; the loop variable [source] is [src] here.
    [all_results.extend(results)] is reached only when the adapter
    returned. *)
Definition search_source (self : WorkplaceSearchService)
  (request : WorkplaceSearchRequest) (user : UserClaims)
  (all_results : list SearchResult) (src : string) : M (list SearchResult) :=
  try_except
    (if (src =? "google_drive")%string
        && Py.contains "workplace:read:google_drive" (scopes user) then
       found <- lift (search_google_drive self (query request)
                        (dict_get user_tokens "google_drive")
                        (max_results request)) ;;
       ret (all_results ++ found)%list
     else if (src =? "notion")%string
             && Py.contains "workplace:read:notion" (scopes user) then
       found <- lift (search_notion self (query request)
                        (dict_get user_tokens "notion")
                        (max_results request)) ;;
       ret (all_results ++ found)%list
     else ret all_results)
    (fun e =>
       logger_error ("Error searching " ++ src ++ ": " ++ exc_str e) ;;
       ret all_results).

Definition search (self : WorkplaceSearchService)
  (request : WorkplaceSearchRequest) (user : UserClaims)
  : M WorkplaceSearchResponse :=
  start_time <- lift now ;;
  all_results <- for_each (sources request) [] (search_source self request user) ;;
  let all_results := Py.sort_desc score all_results in
  let final_results := Py.slice_to all_results (max_results request) in
  end_time <- lift now ;;
  ret {| results := final_results;
         total_count := Z.of_nat (length final_results);
         response_query := query request;
         response_sources := sources request;
         execution_time_ms := elapsed_ms start_time end_time |}.

(** *** API endpoints *)

(** [POST /mcp/tools/{tool_name}/call].  [workplace_search] is the
    module-level service instance; [user] is the result of the
    [get_current_user] dependency. *)
Definition call_tool (workplace_search : WorkplaceSearchService)
  (tool_name : string) (tool_call : MCPToolCall) (user : UserClaims)
  : M MCPResponse :=
  start_time <- lift now ;;
  try_except
    (log_request (user_id user) tool_name (ArgumentsPayload (arguments tool_call)) ;;
     if (tool_name =? "workplace_search")%string then
       let required_scope := "workplace:read" in
       (if negb (Py.any (fun scope => Py.startswith scope required_scope)
                   (scopes user))
        then raise (HTTPException 403
                      ("Insufficient permissions. Required scope: "
                         ++ required_scope ++ ":*"))
        else ret tt) ;;
       search_request <- WorkplaceSearchRequest_init (arguments tool_call) ;;
       search_response <- search workplace_search search_request user ;;
       t <- lift now ;;
       let execution_time := elapsed_ms start_time t in
       log_response (user_id user) tool_name (ResponsePayload search_response)
         execution_time true ;;
       dumped <- match json_dumps search_response with
                 | Some text => ret text
                 | None => raise (TypeError "Object is not JSON serializable")
                 end ;;
       ret {| response_content :=
                [ TextBlock ("Found " ++ Py.str (total_count search_response)
                               ++ " results for '"
                               ++ response_query search_response ++ "'");
                  ResourceBlock
                    ("workplace://search/" ++ response_query search_response)
                    "Search Results" "application/json" dumped ];
              isError := false |}
     else
       raise (HTTPException 404 ("Tool '" ++ tool_name ++ "' not found")))
    (fun e =>
       t <- lift now ;;
       let execution_time := elapsed_ms start_time t in
       log_response (user_id user) tool_name EmptyPayload execution_time false ;;
       if is_HTTPException e then raise e
       else
         logger_error ("Tool execution error: " ++ exc_str e) ;;
         raise (HTTPException 500 "Internal server error")).

End Gateway.

(* ===================================================================== *)
(** ** Tool definitions, tool listing and token exchange                  *)
(* ===================================================================== *)

(** JSON values, for the [inputSchema] dictionaries. *)
#[local] Unset Elimination Schemes.
Inductive Json : Type :=
| JString (s : string)
| JInt (n : Z)
| JBool (b : bool)
| JArray (items : list Json)
| JObject (fields : list (string * Json)).
#[local] Set Elimination Schemes.

Record MCPTool : Type := mkMCPTool {
  name : string;
  description : string;
  inputSchema : Json
}.

Definition MCP_TOOLS : list MCPTool :=
  [ {| name := "workplace_search";
       description :=
         "Search across workplace documents (Google Drive, Notion) with permission controls";
       inputSchema :=
         JObject
           [ ("type", JString "object");
             ("properties",
              JObject
                [ ("query",
                   JObject
                     [ ("type", JString "string");
                       ("description",
                        JString "Search query to find relevant documents") ]);
                  ("sources",
                   JObject
                     [ ("type", JString "array");
                       ("items",
                        JObject
                          [ ("type", JString "string");
                            ("enum",
                             JArray [JString "google_drive"; JString "notion"]) ]);
                       ("description", JString "Sources to search in");
                       ("default",
                        JArray [JString "google_drive"; JString "notion"]) ]);
                  ("max_results",
                   JObject
                     [ ("type", JString "integer");
                       ("minimum", JInt 1);
                       ("maximum", JInt 50);
                       ("default", JInt 10);
                       ("description",
                        JString "Maximum number of results to return") ]);
                  ("include_content",
                   JObject
                     [ ("type", JString "boolean");
                       ("default", JBool true);
                       ("description",
                        JString "Whether to include document content in results") ]) ]);
             ("required", JArray [JString "query"]) ] |} ].

(** [GET /mcp/tools]: the loop over [MCP_TOOLS] that appends the tools the
    user may see.  [user] is the result of the [get_current_user]
    dependency; the body has no effect. *)
Definition list_tools (user : UserClaims) : list MCPTool :=
  fold_left
    (fun available_tools tool =>
       if (name tool =? "workplace_search")%string then
         if Py.any (fun scope => Py.startswith scope "workplace:read:")
              (scopes user)
         then (available_tools ++ [tool])%list
         else available_tools
       else available_tools)
    MCP_TOOLS [].

Definition JWT_EXPIRATION_HOURS : Z := 24.

(** [timedelta(hours=n)] in microseconds. *)
Definition hours (n : Z) : Z := n * 3600000000.

(** The payload [exchange_descope_token] signs. *)
Record InternalClaims : Type := mkInternalClaims {
  claim_sub : string;
  claim_email : string;
  claim_permissions : list string;
  claim_iat : Z;
  claim_exp : Z
}.

(** The dictionary [exchange_descope_token] returns. *)
Record TokenResponse : Type := mkTokenResponse {
  access_token : string;
  token_type : string;
  expires_in : Z
}.

Section Exchange.

Variable W : Type.
Variable utcnow : W -> Z * W.
Variable descope_get_keys : string -> string -> SE W Z.
Variable jwt_decode : string -> string -> string -> SE W JWTPayload.

(** [jwt.encode(payload, key, algorithm=...)]; it may raise. *)
Variable jwt_encode : InternalClaims -> string -> string -> outcome string.

(** [str(e)] of an [HTTPException], which depends on the framework
    version. *)
Variable http_exception_str : Z -> string -> string.

Variable config : Config.

(** [str(e)] for any exception. *)
Definition exc_text (e : PyExc) : string :=
  match e with
  | HTTPException status_code detail => http_exception_str status_code detail
  | _ => exc_str e
  end.

(** [POST /auth/token/exchange]. *)
Definition exchange_descope_token (descope_token : string)
  : M W TokenResponse :=
  try_except
    (user_claims <- verify_descope_token W descope_get_keys jwt_decode config
                      descope_token ;;
     issued <- lift W (now W utcnow) ;;
     t <- lift W (now W utcnow) ;;
     let jwt_payload :=
       {| claim_sub := user_id user_claims;
          claim_email := email user_claims;
          claim_permissions := scopes user_claims;
          claim_iat := issued;
          claim_exp := t + hours JWT_EXPIRATION_HOURS |} in
     internal_token <-
       (fun s => (jwt_encode jwt_payload (JWT_SECRET_KEY config) JWT_ALGORITHM, s)) ;;
     ret {| access_token := internal_token;
            token_type := "bearer";
            expires_in := JWT_EXPIRATION_HOURS * 3600 |})
    (fun e =>
       logger_error W ("Token exchange failed: " ++ exc_text e) ;;
       raise (HTTPException 401 "Token exchange failed")).

End Exchange.

End Mcp.
Import Mcp.
Local Open Scope se_scope.

(* ===================================================================== *)
(** ** Vocabulary of the specification                                    *)
(* ===================================================================== *)

Module Spec.

(** Descending order of the keys. *)
Definition key_ge {A : Type} (key : A -> Q) (a b : A) : Prop :=
  (key b <= key a)%Q.

(** The elements of [l] whose key equals [q], in list order.  Two lists
    with the same [with_key q] for every [q] hold the elements of each key in
    the same relative order. *)
Definition with_key {A : Type} (key : A -> Q) (q : Q) (l : list A) : list A :=
  filter (fun a => Qeq_bool (key a) q) l.

(** The rule of the authorization gate in the specification's words: scope
    [s] grants [required] when [s == required] or [s] is [required] followed
    by a [:]-delimited suffix. *)
Definition scope_grants (s required : string) : bool :=
  (s =? required)%string || Py.startswith s (required ++ ":").

Definition spec_authorize (user_scopes : list string) (required : string) : bool :=
  existsb (fun s => scope_grants s required) user_scopes.

(** The source names an adapter exists for. *)
Definition recognized (src : string) : bool :=
  (src =? "google_drive")%string || (src =? "notion")%string.

Section Aggregation.
Variable W : Type.

(** The adapter that serves a source name, if any. *)
Definition matching_adapter (self : WorkplaceSearchService W) (src : string)
  : option (string -> option string -> Z -> SE W (list SearchResult)) :=
  if (src =? "google_drive")%string then Some (search_google_drive W self)
  else if (src =? "notion")%string then Some (search_notion W self)
  else None.

(** What an adapter call contributes: its results, or nothing when it
    raised. *)
Definition contribution (o : outcome (list SearchResult)) : list SearchResult :=
  match o with Return found => found | Raise _ => [] end.

(** The combined sequence of the specification, in order of arrival: for
    each source in list order, skip it when the scope
    [workplace:read:<source>] is not among the scopes or no adapter matches;
    otherwise invoke the adapter with the query, the user's credential for
    the source and the cap, and collect what it returned, skipping a source
    that failed.  The second component is the outside world after the
    calls. *)
Fixpoint arrivals (self : WorkplaceSearchService W)
  (request : WorkplaceSearchRequest) (user : UserClaims)
  (srcs : list string) (w : W) : list SearchResult * W :=
  match srcs with
  | [] => ([], w)
  | src :: rest =>
      match matching_adapter self src with
      | Some adapter =>
          if Py.contains ("workplace:read:" ++ src) (scopes user) then
            let (o, w') := adapter (query request) (dict_get user_tokens src)
                             (max_results request) w in
            let (more, w'') := arrivals self request user rest w' in
            ((contribution o ++ more)%list, w'')
          else arrivals self request user rest w
      | None => arrivals self request user rest w
      end
  end.

(** The lines logged for the sources that failed, in order. *)
Fixpoint failures (self : WorkplaceSearchService W)
  (request : WorkplaceSearchRequest) (user : UserClaims)
  (srcs : list string) (w : W) : list string :=
  match srcs with
  | [] => []
  | src :: rest =>
      match matching_adapter self src with
      | Some adapter =>
          if Py.contains ("workplace:read:" ++ src) (scopes user) then
            let (o, w') := adapter (query request) (dict_get user_tokens src)
                             (max_results request) w in
            match o with
            | Return _ => failures self request user rest w'
            | Raise e =>
                ("Error searching " ++ src ++ ": " ++ exc_str e)
                  :: failures self request user rest w'
            end
          else failures self request user rest w
      | None => failures self request user rest w
      end
  end.

End Aggregation.

(** A permission rejection: HTTP 403. *)
Definition forbidden {A : Type} (o : outcome A) : Prop :=
  exists detail, o = Raise (HTTPException 403 detail).

(** The response [r] with its echoed source list replaced. *)
Definition with_sources (r : WorkplaceSearchResponse) (srcs : list string)
  : WorkplaceSearchResponse :=
  {| results := results r;
     total_count := total_count r;
     response_query := response_query r;
     response_sources := srcs;
     execution_time_ms := execution_time_ms r |}.

End Spec.
Import Spec.

(* ===================================================================== *)
(** ** Concrete scenarios                                                 *)
(* ===================================================================== *)

Module Scenario.

(** A world that is only a clock: the [n]-th reading is [n] milliseconds. *)
Definition tick (n : nat) : Z * nat := (Z.of_nat n * 1000, S n).

Definition wall_ms (t0 t1 : Z) : Z := (t1 - t0) / 1000.

Definition st0 : State nat := {| world := 0%nat; log := [] |}.

Definition cfg : Config :=
  {| DESCOPE_PROJECT_ID := "your_project_id";
     JWT_SECRET_KEY := "your-secret-key";
     CEQUENCE_GATEWAY_URL := "https://your-gateway.cequence.ai";
     CEQUENCE_API_KEY := "your_cequence_api_key" |}.

Definition claims (granted : list string) : UserClaims :=
  {| user_id := "u-1"; email := "user@example.com"; scopes := granted;
     exp := 1893456000 |}.

Definition drive_reader : UserClaims := claims ["workplace:read:google_drive"].
Definition both_reader : UserClaims :=
  claims ["workplace:read:google_drive"; "workplace:read:notion"].
Definition broad_reader : UserClaims := claims ["workplace:read"].
Definition readonly_user : UserClaims := claims ["workplace:readonly"].

Definition budget (srcs : list string) (k : Z) : WorkplaceSearchRequest :=
  {| query := "budget"; sources := srcs; max_results := k;
     include_content := true |}.

(** A service whose Google Drive adapter times out. *)
Definition drive_down : WorkplaceSearchService nat :=
  {| search_google_drive := fun _ _ _ => raise (RequestError "timeout");
     search_notion := mock_search_notion nat tick |}.

(** Identity providers: one that answers with a given status code, one
    that cannot be reached. *)
Definition provider_answers (code : Z) : string -> string -> SE nat Z :=
  fun _ _ => ret code.
Definition provider_unreachable : string -> string -> SE nat Z :=
  fun _ _ => raise (RequestError "connection refused").

(** JWT decoders: one that accepts every token with a fixed payload, one
    that rejects every token. *)
Definition decode_accepts : string -> string -> string -> SE nat JWTPayload :=
  fun _ _ _ =>
    ret {| sub := Some "u-1"; payload_email := Some "user@example.com";
           permissions := Some ["workplace:read:google_drive"];
           payload_exp := Some 1893456000 |}.
Definition decode_rejects : string -> string -> string -> SE nat JWTPayload :=
  fun _ _ _ => raise (JWTError "Signature verification failed.").

(** A decoder that accepts the token, whose payload has no [sub]. *)
Definition decode_no_subject : string -> string -> string -> SE nat JWTPayload :=
  fun _ _ _ =>
    ret {| sub := None; payload_email := Some "user@example.com";
           permissions := None; payload_exp := Some 1893456000 |}.

(** An observability gateway that accepts every event, and an encoder
    that cannot encode a response holding a timestamp. *)
Definition post_ok : string -> string -> AuditEvent -> SE nat unit :=
  fun _ _ _ => ret tt.
Definition dumps (r : WorkplaceSearchResponse) : option string :=
  if existsb (fun x => match last_modified x with Some _ => true | None => false end)
       (results r)
  then None else Some "{...}".

Definition budget_call : MCPToolCall :=
  {| call_name := "workplace_search";
     arguments := {| arg_query := Some "budget"; arg_sources := None;
                     arg_max_results := None; arg_include_content := None |} |}.

End Scenario.

(* ===================================================================== *)
(** ** Vocabulary of the further properties                               *)
(* ===================================================================== *)

Module Vocab.

(** [j[key]] on a JSON object. *)
Definition json_get (key : string) (j : Json) : option Json :=
  match j with
  | JObject fields =>
      option_map snd (find (fun kv => String.eqb (fst kv) key) fields)
  | _ => None
  end.

(** [tool.inputSchema["properties"][field][key]]. *)
Definition schema_entry (tool : MCPTool) (field key : string) : option Json :=
  match json_get "properties" (inputSchema tool) with
  | Some props =>
      match json_get field props with
      | Some entry => json_get key entry
      | None => None
      end
  | None => None
  end.

(** A source [search] calls an adapter for: a name an adapter exists for,
    whose scope is among the user's. *)
Definition searched (user : UserClaims) (src : string) : bool :=
  recognized src && Py.contains ("workplace:read:" ++ src) (scopes user).

(** Two claim sets that agree on the two per-source scopes. *)
Definition same_grants (u1 u2 : UserClaims) : Prop :=
  Py.contains "workplace:read:google_drive" (scopes u1)
    = Py.contains "workplace:read:google_drive" (scopes u2)
  /\ Py.contains "workplace:read:notion" (scopes u1)
     = Py.contains "workplace:read:notion" (scopes u2).

(** The payload a decoder reads back from a token that carries the
    claims [c], with [x] the integer form of the expiry. *)
Definition signed_payload (c : InternalClaims) (x : Z) : JWTPayload :=
  {| sub := Some (claim_sub c);
     payload_email := Some (claim_email c);
     permissions := Some (claim_permissions c);
     payload_exp := Some x |}.

(** The audit events of a failed call and of a successful one. *)
Definition failure_event (ev : AuditEvent) : Prop :=
  exists ts uid tool ms,
    ev = ResponseEvent ts uid tool EmptyPayload ms false
           MCP_SERVER_NAME MCP_SERVER_VERSION.

Definition success_event (ev : AuditEvent) : Prop :=
  exists ts uid tool resp ms,
    ev = ResponseEvent ts uid tool (ResponsePayload resp) ms true
           MCP_SERVER_NAME MCP_SERVER_VERSION.

Definition request_event (uid tool : string) (a : SearchArguments)
  (ev : AuditEvent) : Prop :=
  exists ts,
    ev = RequestEvent ts uid tool (ArgumentsPayload a)
           MCP_SERVER_NAME MCP_SERVER_VERSION.

End Vocab.
Import Vocab.

(* ===================================================================== *)
(** ** A world that records the audit events                              *)
(* ===================================================================== *)

Module Recording.

(** The clock and the events the observability gateway was sent. *)
Definition World : Type := (nat * list AuditEvent)%type.

Definition tick (w : World) : Z * World :=
  (Z.of_nat (fst w) * 1000, (S (fst w), snd w)).

Definition posted (w : World) : list AuditEvent := snd w.

(** A gateway that accepts every event, and one that is sent the event
    and then fails. *)
Definition post_ok : string -> string -> AuditEvent -> SE World unit :=
  fun _ _ ev w => (Return tt, (fst w, (snd w ++ [ev])%list)).
Definition post_fails : string -> string -> AuditEvent -> SE World unit :=
  fun _ _ ev w => (Raise (RequestError "gateway down"), (fst w, (snd w ++ [ev])%list)).

Definition st0 : State World := {| world := (0%nat, []); log := [] |}.

(** An encoder that always succeeds. *)
Definition dumps_ok (r : WorkplaceSearchResponse) : option string := Some "{...}".

(** JWT encoders: one that issues a fixed token, one that fails; and a
    rendering of [HTTPException] as its detail. *)
Definition encode_ok : InternalClaims -> string -> string -> outcome string :=
  fun _ _ _ => Return "internal-token".
Definition encode_fails : InternalClaims -> string -> string -> outcome string :=
  fun _ _ _ => Raise (JWTError "Algorithm not supported.").
Definition str_http (status_code : Z) (detail : string) : string := detail.

(** An encoder that cannot encode any response. *)
Definition dumps_fails (r : WorkplaceSearchResponse) : option string := None.

(** A decoder that accepts the token, whose payload has no [permissions]. *)
Definition decode_no_permissions : string -> string -> string -> SE nat JWTPayload :=
  fun _ _ _ =>
    ret {| sub := Some "u-1"; payload_email := Some "user@example.com";
           permissions := None; payload_exp := Some 1893456000 |}.

(** The one tool of [MCP_TOOLS]. *)
Definition search_tool : MCPTool :=
  hd {| name := ""; description := ""; inputSchema := JObject [] |} MCP_TOOLS.

(** A call with [max_results] out of range, and a second user who holds
    the Google Drive scope among others. *)
Definition oversized_call : MCPToolCall :=
  {| call_name := "workplace_search";
     arguments := {| arg_query := Some "budget"; arg_sources := None;
                     arg_max_results := Some 51; arg_include_content := None |} |}.

Definition other_drive_reader : UserClaims :=
  {| user_id := "u-2"; email := "other@example.com";
     scopes := ["calendar:read"; "workplace:read:google_drive"]; exp := 0 |}.

End Recording.

(* ===================================================================== *)
(** ** Facts about the built-ins                                          *)
(* ===================================================================== *)

Section SortFacts.
Context {A : Type}.
Variable key : A -> Q.

Lemma insert_desc_perm (x : A) (l : list A) :
  Permutation (x :: l) (Py.insert_desc key x l).
Proof.
  induction l as [|y l IH]; simpl.
  - apply Permutation_refl.
  - destruct (Qle_bool (key y) (key x)).
    + apply Permutation_refl.
    + eapply perm_trans; [apply perm_swap|]. now apply perm_skip.
Qed.

Lemma sort_desc_perm (l : list A) : Permutation l (Py.sort_desc key l).
Proof.
  induction l as [|x l IH]; simpl.
  - constructor.
  - eapply perm_trans; [apply perm_skip, IH | apply insert_desc_perm].
Qed.

Lemma sort_desc_length (l : list A) : length (Py.sort_desc key l) = length l.
Proof. symmetry. apply Permutation_length, sort_desc_perm. Qed.

Lemma insert_desc_sorted (x : A) (l : list A) :
  StronglySorted (key_ge key) l -> StronglySorted (key_ge key) (Py.insert_desc key x l).
Proof.
  induction 1 as [|y l Hs IH Hall]; simpl.
  - repeat constructor.
  - destruct (Qle_bool (key y) (key x)) eqn:E.
    + apply Qle_bool_iff in E.
      constructor; [now constructor|].
      constructor; [exact E|].
      rewrite Forall_forall in *. intros z Hz.
      unfold key_ge in *. eapply Qle_trans; [apply Hall, Hz | exact E].
    + assert (Hlt : (key x < key y)%Q).
      { apply Qnot_le_lt. intro H. apply Qle_bool_iff in H. congruence. }
      constructor; [exact IH|].
      rewrite Forall_forall in *. intros z Hz.
      apply (Permutation_in _ (Permutation_sym (insert_desc_perm x l))) in Hz.
      destruct Hz as [-> | Hz]; [now apply Qlt_le_weak | now apply Hall].
Qed.

Lemma sort_desc_sorted (l : list A) : StronglySorted (key_ge key) (Py.sort_desc key l).
Proof.
  induction l as [|x l IH]; simpl; [constructor | now apply insert_desc_sorted].
Qed.

(** Insertion moves [x] only past elements with a strictly greater key. *)
Lemma insert_desc_with_key (q : Q) (x : A) (l : list A) :
  with_key key q (Py.insert_desc key x l) = with_key key q (x :: l).
Proof.
  induction l as [|y l IH]; simpl; [reflexivity|].
  destruct (Qle_bool (key y) (key x)) eqn:E; [reflexivity|].
  simpl in *. rewrite IH.
  destruct (Qeq_bool (key x) q) eqn:Ex; [|reflexivity].
  destruct (Qeq_bool (key y) q) eqn:Ey; [|reflexivity].
  apply Qeq_bool_iff in Ex, Ey.
  assert (H : Qle_bool (key y) (key x) = true).
  { apply Qle_bool_iff. rewrite Ex, Ey. apply Qle_refl. }
  congruence.
Qed.

(** Stability: sorting keeps the elements of each key in their order. *)
Lemma sort_desc_stable (q : Q) (l : list A) :
  with_key key q (Py.sort_desc key l) = with_key key q l.
Proof.
  induction l as [|x l IH]; simpl; [reflexivity|].
  rewrite insert_desc_with_key. simpl. now rewrite IH.
Qed.

Lemma with_key_same (q : Q) (a : A) (l : list A) :
  (key a == q)%Q -> with_key key q (a :: l) = a :: with_key key q l.
Proof.
  intro H. unfold with_key. simpl.
  now rewrite (proj2 (Qeq_bool_iff _ _) H).
Qed.

Lemma with_key_head (a : A) (l : list A) :
  with_key key (key a) (a :: l) = a :: with_key key (key a) l.
Proof. apply with_key_same, Qeq_refl. Qed.

Lemma with_key_In (q : Q) (a : A) (l : list A) :
  In a (with_key key q l) -> In a l /\ (key a == q)%Q.
Proof.
  unfold with_key. rewrite filter_In. intros [H E]. split; [exact H|].
  now apply Qeq_bool_iff.
Qed.

Lemma with_key_other (q : Q) (a : A) (l : list A) :
  ~ (key a == q)%Q -> with_key key q (a :: l) = with_key key q l.
Proof.
  intro H. unfold with_key. simpl.
  destruct (Qeq_bool (key a) q) eqn:E; [|reflexivity].
  apply Qeq_bool_iff in E. contradiction.
Qed.

Lemma with_key_eq_compat (q q' : Q) (l : list A) :
  (q == q')%Q -> with_key key q l = with_key key q' l.
Proof.
  intro H. unfold with_key. apply filter_ext. intro a.
  destruct (Qeq_bool (key a) q) eqn:E, (Qeq_bool (key a) q') eqn:E';
    try reflexivity.
  - apply Qeq_bool_iff in E. rewrite H in E. apply Qeq_bool_iff in E. congruence.
  - apply Qeq_bool_iff in E'. rewrite <- H in E'. apply Qeq_bool_iff in E'.
    congruence.
Qed.

(** A descending list is determined by its elements of each key: two
    descending lists that agree key by key are equal.  Hence
    [Py.sort_desc], which is descending and stable, is the only such
    rearrangement of its input. *)
Lemma sorted_stable_unique (l1 : list A) :
  forall l2 : list A,
    StronglySorted (key_ge key) l1 -> StronglySorted (key_ge key) l2 ->
    (forall q, with_key key q l1 = with_key key q l2) -> l1 = l2.
Proof.
  induction l1 as [|a l1 IH]; intros l2 S1 S2 Hq.
  - destruct l2 as [|b l2]; [reflexivity|].
    specialize (Hq (key b)). rewrite with_key_head in Hq. discriminate.
  - destruct l2 as [|b l2].
    { specialize (Hq (key a)). rewrite with_key_head in Hq. discriminate. }
    inversion S1 as [|? ? S1' F1]; subst.
    inversion S2 as [|? ? S2' F2]; subst.
    rewrite Forall_forall in F1, F2.
    assert (Hba : (key b <= key a)%Q).
    { pose proof (Hq (key b)) as H. rewrite (with_key_head b) in H.
      assert (Hin : In b (with_key key (key b) (a :: l1))) by (rewrite H; now left).
      apply with_key_In in Hin. destruct Hin as [[<- | Hin] _].
      - apply Qle_refl.
      - now apply F1. }
    assert (Hab : (key a <= key b)%Q).
    { pose proof (Hq (key a)) as H. rewrite (with_key_head a) in H.
      assert (Hin : In a (with_key key (key a) (b :: l2))) by (rewrite <- H; now left).
      apply with_key_In in Hin. destruct Hin as [[<- | Hin] _].
      - apply Qle_refl.
      - now apply F2. }
    assert (Heq : (key b == key a)%Q) by now apply Qle_antisym.
    pose proof (Hq (key a)) as Ha.
    rewrite with_key_head, (with_key_same (key a) b) in Ha by exact Heq.
    injection Ha as -> Ht.
    f_equal. apply IH; try assumption.
    intro q. destruct (Qeq_dec (key b) q) as [E | E].
    + rewrite <- !(with_key_eq_compat (key b) q) by exact E. exact Ht.
    + pose proof (Hq q) as H. now rewrite !with_key_other in H.
Qed.

Lemma sort_desc_unique (l l' : list A) :
  StronglySorted (key_ge key) l' ->
  (forall q, with_key key q l' = with_key key q l) ->
  l' = Py.sort_desc key l.
Proof.
  intros S H. apply sorted_stable_unique; [exact S | apply sort_desc_sorted|].
  intro q. now rewrite sort_desc_stable.
Qed.

End SortFacts.

Section SliceFacts.
Context {A : Type}.

Lemma slice_to_nonneg (l : list A) (k : Z) :
  0 <= k -> Py.slice_to l k = firstn (Z.to_nat k) l.
Proof.
  intro H. unfold Py.slice_to.
  destruct (Z.leb_spec 0 k); [reflexivity | lia].
Qed.

(** A slice [l[:k]] is always a prefix of [l]. *)
Lemma slice_to_prefix (l : list A) (k : Z) :
  exists n, Py.slice_to l k = firstn n l.
Proof. unfold Py.slice_to. destruct (0 <=? k); eauto. Qed.

Lemma slice_to_nil (k : Z) : Py.slice_to (@nil A) k = [].
Proof. unfold Py.slice_to. destruct (0 <=? k); apply firstn_nil. Qed.

Lemma firstn_In (x : A) (n : nat) (l : list A) :
  In x (firstn n l) -> In x l.
Proof.
  revert n. induction l as [|a l IH]; intros [|n]; simpl; try tauto.
  intros [-> | H]; [now left | right; eauto].
Qed.

Lemma firstn_sorted (R : A -> A -> Prop) (n : nat) (l : list A) :
  StronglySorted R l -> StronglySorted R (firstn n l).
Proof.
  intro H. revert n. induction H as [|a l Hs IH Hall]; intros [|n]; simpl;
    try constructor.
  - apply IH.
  - rewrite Forall_forall in *. intros x Hx. apply Hall.
    eapply firstn_In; eauto.
Qed.

(** Filtering a prefix gives a prefix of the filtered list. *)
Lemma filter_firstn (f : A -> bool) (n : nat) (l : list A) :
  exists m, filter f (firstn n l) = firstn m (filter f l).
Proof.
  revert n. induction l as [|a l IH]; intros [|n]; simpl.
  - now exists 0%nat.
  - now exists 0%nat.
  - now exists 0%nat.
  - destruct (IH n) as [m Hm]. destruct (f a).
    + exists (S m). simpl. now rewrite Hm.
    + now exists m.
Qed.
End SliceFacts.

Section ScopeFacts.

Lemma prefix_refl (s : string) : String.prefix s s = true.
Proof.
  induction s as [|c s IH]; simpl; [reflexivity|].
  destruct (ascii_dec c c); [exact IH | congruence].
Qed.

Lemma prefix_app_l (a b s : string) :
  String.prefix (a ++ b) s = true -> String.prefix a s = true.
Proof.
  revert s. induction a as [|c a IH]; intros s H; simpl in *.
  - now destruct s.
  - destruct s as [|d s]; simpl in *; [discriminate|].
    destruct (ascii_dec c d); [now apply IH | discriminate].
Qed.

(** A scope the specification's rule accepts starts with the required
    string. *)
Lemma scope_grants_startswith (s required : string) :
  scope_grants s required = true -> Py.startswith s required = true.
Proof.
  unfold scope_grants, Py.startswith. intro H.
  apply orb_true_iff in H. destruct H as [H | H].
  - apply String.eqb_eq in H. subst. apply prefix_refl.
  - eapply prefix_app_l, H.
Qed.

Lemma spec_authorize_any (granted : list string) (required : string) :
  spec_authorize granted required = true ->
  Py.any (fun scope => Py.startswith scope required) granted = true.
Proof.
  unfold spec_authorize, Py.any. rewrite !existsb_exists.
  intros [s [Hin Hs]]. exists s. split; [exact Hin|].
  now apply scope_grants_startswith.
Qed.

Lemma contains_In (x : string) (l : list string) :
  Py.contains x l = true <-> In x l.
Proof.
  unfold Py.contains. rewrite existsb_exists. split.
  - intros [y [Hin Hy]]. apply String.eqb_eq in Hy. now subst.
  - intro H. exists x. split; [exact H | apply String.eqb_refl].
Qed.

(** The per-source scope [workplace:read:<source>] is never the bare
    scope [workplace:read]. *)
Lemma source_scope_not_broad (src : string) :
  Py.contains ("workplace:read:" ++ src) ["workplace:read"] = false.
Proof. reflexivity. Qed.

End ScopeFacts.

(* ===================================================================== *)
(** ** Facts about the gateway                                            *)
(* ===================================================================== *)

Section GatewayFacts.
Variable W : Type.
Variable utcnow : W -> Z * W.
Variable descope_get_keys : string -> string -> SE W Z.
Variable jwt_decode : string -> string -> string -> SE W JWTPayload.
Variable cequence_post : string -> string -> AuditEvent -> SE W unit.
Variable elapsed_ms : Z -> Z -> Z.
Variable json_dumps : WorkplaceSearchResponse -> option string.
Variable config : Config.

Local Abbreviation State := (State W).
Local Abbreviation search := (search W utcnow elapsed_ms).
Local Abbreviation search_source := (search_source W).
Local Abbreviation arrivals := (arrivals W).
Local Abbreviation failures := (failures W).
Local Abbreviation log_request := (log_request W utcnow cequence_post config).
Local Abbreviation log_response := (log_response W utcnow cequence_post config).
Local Abbreviation verify_descope_token :=
  (verify_descope_token W descope_get_keys jwt_decode config).
Local Abbreviation get_current_user :=
  (get_current_user W descope_get_keys jwt_decode config).
Local Abbreviation call_tool :=
  (call_tool W utcnow cequence_post elapsed_ms json_dumps config).

Lemma lift_now (st : State) :
  lift W (now W utcnow) st =
    (Return (fst (utcnow (world W st))),
     {| world := snd (utcnow (world W st)); log := log W st |}).
Proof. unfold lift, now. destruct (utcnow (world W st)). reflexivity. Qed.

(** The audit calls are best effort: they return whatever the gateway
    call does. *)
Lemma log_request_returns uid tool data (st : State) :
  exists st', log_request uid tool data st = (Return tt, st').
Proof.
  unfold Mcp.log_request, try_except, lift, bind, now, logger_error.
  destruct (utcnow (world W st)) as [t w].
  destruct (cequence_post _ _ _ w) as [[[]|e] w']; eauto.
Qed.

Lemma log_response_returns uid tool data ms ok (st : State) :
  exists st', log_response uid tool data ms ok st = (Return tt, st').
Proof.
  unfold Mcp.log_response, try_except, lift, bind, now, logger_error.
  destruct (utcnow (world W st)) as [t w].
  destruct (cequence_post _ _ _ w) as [[[]|e] w']; eauto.
Qed.

(** One round of the loop of [search] never raises: an authorized source
    with a matching adapter adds what the adapter returned, or nothing and
    a log line when the adapter raised; any other source adds nothing. *)
Lemma search_source_step self request user acc src (st : State) :
  search_source self request user acc src st =
    match matching_adapter W self src with
    | Some adapter =>
        if Py.contains ("workplace:read:" ++ src) (scopes user) then
          let (o, w') := adapter (query request) (dict_get user_tokens src)
                           (max_results request) (world W st) in
          (Return (acc ++ contribution o)%list,
           {| world := w';
              log := match o with
                     | Return _ => log W st
                     | Raise e =>
                         (log W st
                            ++ [("Error searching " ++ src ++ ": "
                                   ++ exc_str e)%string])%list
                     end |})
        else (Return acc, st)
    | None => (Return acc, st)
    end.
Proof.
  unfold Mcp.search_source, try_except, matching_adapter.
  destruct (String.eqb_spec src "google_drive") as [-> | Hg].
  - simpl (_ && _). simpl ("workplace:read:" ++ _)%string.
    destruct (Py.contains "workplace:read:google_drive" (scopes user));
      [|reflexivity].
    unfold bind, lift, ret, logger_error. simpl.
    destruct (search_google_drive W self _ _ _ (world W st)) as [[found|e] w'];
      simpl; [reflexivity|]. now rewrite app_nil_r.
  - simpl (_ && _).
    destruct (String.eqb_spec src "notion") as [-> | Hn]; [|reflexivity].
    simpl (_ && _). simpl ("workplace:read:" ++ _)%string.
    destruct (Py.contains "workplace:read:notion" (scopes user));
      [|reflexivity].
    unfold bind, lift, ret, logger_error. simpl.
    destruct (search_notion W self _ _ _ (world W st)) as [[found|e] w'];
      simpl; [reflexivity|]. now rewrite app_nil_r.
Qed.

(** The loop of [search] never raises; it gathers the [arrivals] of the
    specification and logs one line per failed source. *)
Lemma search_loop_arrivals self request user (srcs : list string) :
  forall (acc : list SearchResult) (st : State),
    for_each srcs acc (search_source self request user) st =
      (Return (acc ++ fst (arrivals self request user srcs (world W st)))%list,
       {| world := snd (arrivals self request user srcs (world W st));
          log := (log W st ++ failures self request user srcs (world W st))%list |}).
Proof.
  induction srcs as [|src rest IH]; intros acc st; simpl.
  - unfold ret. rewrite !app_nil_r. now destruct st.
  - unfold bind. rewrite search_source_step.
    destruct (matching_adapter W self src) as [adapter|]; [|apply IH].
    destruct (Py.contains _ (scopes user)); [|apply IH].
    destruct (adapter _ _ _ (world W st)) as [o w'].
    rewrite IH. simpl.
    destruct (arrivals self request user rest w') as [more w''].
    destruct o as [found|e]; simpl; rewrite <- ?app_assoc; reflexivity.
Qed.

(** [search] always returns: the response holds the first [max_results]
    of the arrivals sorted by descending score, echoes the query and the
    sources, and the only effects are two clock readings, the adapter
    calls and the log lines of the failed sources. *)
Lemma search_returns self request user (st : State) :
  let w1 := snd (utcnow (world W st)) in
  let combined := arrivals self request user (sources request) w1 in
  let final_results :=
    Py.slice_to (Py.sort_desc score (fst combined)) (max_results request) in
  search self request user st =
    (Return {| results := final_results;
               total_count := Z.of_nat (length final_results);
               response_query := query request;
               response_sources := sources request;
               execution_time_ms :=
                 elapsed_ms (fst (utcnow (world W st)))
                   (fst (utcnow (snd combined))) |},
     {| world := snd (utcnow (snd combined));
        log := (log W st
                  ++ failures self request user (sources request) w1)%list |}).
Proof.
  intros w1 combined final_results.
  unfold Mcp.search, bind. rewrite lift_now.
  rewrite search_loop_arrivals. simpl. rewrite lift_now. reflexivity.
Qed.

(** The handler of [call_tool] raises again an [HTTPException] and turns
    any other exception into HTTP 500. *)
Lemma call_tool_handler_raises uid tool start_time e (st : State) :
  exists st',
    (t <- lift W (now W utcnow) ;;
     log_response uid tool EmptyPayload (elapsed_ms start_time t) false ;;
     if is_HTTPException e then raise e
     else
       logger_error W ("Tool execution error: " ++ exc_str e) ;;
       raise (HTTPException 500 "Internal server error")) st
    = (Raise (if is_HTTPException e then e
              else HTTPException 500 "Internal server error"), st')
      :> outcome MCPResponse * State.
Proof.
  unfold bind at 1. rewrite lift_now. unfold bind at 1.
  destruct (log_response_returns uid tool EmptyPayload
              (elapsed_ms start_time (fst (utcnow (world W st)))) false
              {| world := snd (utcnow (world W st)); log := log W st |})
    as [st1 ->].
  destruct (is_HTTPException e); unfold bind, raise, logger_error; eauto.
Qed.

(** When no scope starts with [workplace:read], [call_tool] rejects the
    [workplace_search] call with HTTP 403, whatever the arguments. *)
Lemma call_tool_rejects ws tool_call user (st : State) :
  Py.any (fun scope => Py.startswith scope "workplace:read") (scopes user) = false ->
  exists st',
    call_tool ws "workplace_search" tool_call user st =
      (Raise (HTTPException 403
                "Insufficient permissions. Required scope: workplace:read:*"),
       st').
Proof.
  intro Hgate. unfold Mcp.call_tool.
  unfold bind at 1. rewrite lift_now. unfold try_except.
  unfold bind at 1.
  destruct (log_request_returns (user_id user) "workplace_search"
              (ArgumentsPayload (arguments tool_call))
              {| world := snd (utcnow (world W st)); log := log W st |})
    as [st1 ->].
  simpl (_ =? _)%string. cbv iota. cbv zeta.
  rewrite Hgate. simpl negb. cbv iota.
  unfold bind at 1. unfold raise at 1.
  destruct (call_tool_handler_raises (user_id user) "workplace_search"
              (fst (utcnow (world W st)))
              (HTTPException 403
                 "Insufficient permissions. Required scope: workplace:read:*")
              st1) as [st2 H].
  exists st2. exact H.
Qed.

(** When some scope starts with [workplace:read], [call_tool] does not
    reject the [workplace_search] call for lack of permission: the call
    returns a response, or fails with HTTP 500 on invalid arguments or an
    encoding failure. *)
Lemma call_tool_passes ws tool_call user (st : State) o st' :
  Py.any (fun scope => Py.startswith scope "workplace:read") (scopes user) = true ->
  call_tool ws "workplace_search" tool_call user st = (o, st') ->
  (exists r, o = Return r)
  \/ o = Raise (HTTPException 500 "Internal server error").
Proof.
  intros Hgate Hrun. unfold Mcp.call_tool in Hrun.
  unfold bind at 1 in Hrun. rewrite lift_now in Hrun. unfold try_except in Hrun.
  unfold bind at 1 in Hrun.
  destruct (log_request_returns (user_id user) "workplace_search"
              (ArgumentsPayload (arguments tool_call))
              {| world := snd (utcnow (world W st)); log := log W st |})
    as [st1 Hlog].
  rewrite Hlog in Hrun. clear Hlog.
  simpl (_ =? _)%string in Hrun. cbv iota in Hrun. cbv zeta in Hrun.
  rewrite Hgate in Hrun. simpl negb in Hrun. cbv iota in Hrun.
  unfold bind at 1 in Hrun. unfold ret at 1 in Hrun.
  unfold bind at 1 in Hrun.
  destruct (WorkplaceSearchRequest_init (arguments tool_call) st1)
    as [[request|e] st2] eqn:Hinit.
  - unfold bind at 1 in Hrun. rewrite search_returns in Hrun. cbv zeta in Hrun.
    unfold bind at 1 in Hrun. rewrite lift_now in Hrun.
    unfold bind at 1 in Hrun.
    match type of Hrun with
    | context [log_response ?u ?t ?d ?ms ?ok ?s] =>
        destruct (log_response_returns u t d ms ok s) as [st3 Hlog]
    end.
    rewrite Hlog in Hrun. clear Hlog.
    unfold bind at 1 in Hrun.
    match type of Hrun with
    | context [json_dumps ?r] => destruct (json_dumps r) as [text|]
    end.
    + unfold ret in Hrun. inversion Hrun. eauto.
    + unfold raise at 1 in Hrun.
      destruct (call_tool_handler_raises (user_id user) "workplace_search"
                  (fst (utcnow (world W st)))
                  (TypeError "Object is not JSON serializable") st3)
        as [st4 H].
      rewrite H in Hrun. inversion Hrun. now right.
  - assert (He : is_HTTPException e = false).
    { unfold WorkplaceSearchRequest_init in Hinit.
      destruct (arg_query (arguments tool_call)); [|now inversion Hinit].
      destruct (ge_le 1 50 _); [discriminate|].
      destruct (_ <? 1); now inversion Hinit. }
    destruct (call_tool_handler_raises (user_id user) "workplace_search"
                (fst (utcnow (world W st))) e st2) as [st3 H].
    rewrite H, He in Hrun. inversion Hrun. now right.
Qed.

(** *** Token verification *)

Lemma verify_status_not_200 token (st : State) code w' :
  descope_get_keys (DESCOPE_DOMAIN config ++ "/keys") token (world W st)
    = (Return code, w') ->
  code <> 200 ->
  verify_descope_token token st =
    (Raise (HTTPException 401 "Invalid token"),
     {| world := w'; log := log W st |}).
Proof.
  intros Hget Hcode.
  unfold Mcp.verify_descope_token, try_except, bind, lift.
  rewrite Hget. destruct (Z.eqb_spec code 200) as [E | E]; [contradiction|].
  reflexivity.
Qed.

Lemma verify_decode_fails token (st : State) w1 msg w2 :
  descope_get_keys (DESCOPE_DOMAIN config ++ "/keys") token (world W st)
    = (Return 200, w1) ->
  jwt_decode token (JWT_SECRET_KEY config) JWT_ALGORITHM w1
    = (Raise (JWTError msg), w2) ->
  verify_descope_token token st =
    (Raise (HTTPException 401 "Invalid token"),
     {| world := w2;
        log := (log W st ++ [("JWT verification failed: " ++ msg)%string])%list |}).
Proof.
  intros Hget Hdec.
  unfold Mcp.verify_descope_token, try_except, bind, lift.
  rewrite Hget. simpl. rewrite Hdec. reflexivity.
Qed.

Lemma verify_provider_raises token (st : State) e w' :
  descope_get_keys (DESCOPE_DOMAIN config ++ "/keys") token (world W st)
    = (Raise e, w') ->
  is_JWTError e = false ->
  verify_descope_token token st = (Raise e, {| world := w'; log := log W st |}).
Proof.
  intros Hget He.
  unfold Mcp.verify_descope_token, try_except, bind, lift.
  rewrite Hget, He. reflexivity.
Qed.

(** [get_current_user] lets an [HTTPException] through and reports any
    other exception as "Authentication failed". *)
Lemma get_current_user_raises token (st : State) e st1 :
  verify_descope_token token st = (Raise e, st1) ->
  get_current_user token st =
    if is_HTTPException e then (Raise e, st1)
    else (Raise (HTTPException 401 "Authentication failed"),
          {| world := world W st1;
             log := (log W st1
                       ++ [("Authentication error: " ++ exc_str e)%string])%list |}).
Proof.
  intro H. unfold Mcp.get_current_user, try_except. rewrite H.
  destruct (is_HTTPException e); reflexivity.
Qed.

(** *** Sources that contribute nothing *)

Lemma arrivals_skip self request user src rest w :
  matching_adapter W self src = None
  \/ Py.contains ("workplace:read:" ++ src) (scopes user) = false ->
  arrivals self request user (src :: rest) w = arrivals self request user rest w
  /\ failures self request user (src :: rest) w
     = failures self request user rest w.
Proof.
  cbn [Spec.arrivals Spec.failures]. intros [H | H]; rewrite H; [now split|].
  destruct (matching_adapter W self src); now split.
Qed.

Lemma matching_adapter_unrecognized self src :
  recognized src = false -> matching_adapter W self src = None.
Proof.
  unfold recognized, matching_adapter. intro H.
  apply orb_false_iff in H. destruct H as [-> ->]. reflexivity.
Qed.

Lemma arrivals_unrecognized self request user before src after :
  recognized src = false ->
  forall w,
    arrivals self request user (before ++ src :: after) w
      = arrivals self request user (before ++ after) w
    /\ failures self request user (before ++ src :: after) w
       = failures self request user (before ++ after) w.
Proof.
  intro H. induction before as [|s before IH]; intro w.
  - apply arrivals_skip. left. now apply matching_adapter_unrecognized.
  - cbn [app Spec.arrivals Spec.failures].
    destruct (matching_adapter W self s) as [adapter|]; [|apply IH].
    destruct (Py.contains _ (scopes user)); [|apply IH].
    destruct (adapter _ _ _ w) as [o w'].
    destruct (IH w') as [-> ->]. now split.
Qed.

(** The arrivals depend on the request through its query and cap only. *)
Lemma arrivals_request_ext self r1 r2 user srcs :
  query r1 = query r2 -> max_results r1 = max_results r2 ->
  forall w,
    arrivals self r1 user srcs w = arrivals self r2 user srcs w
    /\ failures self r1 user srcs w = failures self r2 user srcs w.
Proof.
  intros Hq Hk. induction srcs as [|s srcs IH]; intro w;
    cbn [Spec.arrivals Spec.failures]; [now split|].
  destruct (matching_adapter W self s) as [adapter|]; [|apply IH].
  destruct (Py.contains _ (scopes user)); [|apply IH].
  rewrite Hq, Hk. destruct (adapter _ _ _ w) as [o w'].
  destruct (IH w') as [-> ->]. now split.
Qed.

Lemma arrivals_unauthorized self request user srcs :
  (forall src, Py.contains ("workplace:read:" ++ src) (scopes user) = false) ->
  forall w,
    arrivals self request user srcs w = ([], w)
    /\ failures self request user srcs w = [].
Proof.
  intro H. induction srcs as [|s srcs IH]; intro w; [now split|].
  destruct (arrivals_skip self request user s srcs w) as [-> ->];
    [right; apply H | apply IH].
Qed.

Lemma arrivals_failed self request user src rest adapter w e w' :
  matching_adapter W self src = Some adapter ->
  Py.contains ("workplace:read:" ++ src) (scopes user) = true ->
  adapter (query request) (dict_get user_tokens src) (max_results request) w
    = (Raise e, w') ->
  arrivals self request user (src :: rest) w = arrivals self request user rest w'.
Proof.
  intros Ha Hs He. cbn [Spec.arrivals]. rewrite Ha, Hs, He.
  now destruct (arrivals self request user rest w').
Qed.

(** Every arrival was returned by the adapter of an authorized source of
    the list. *)
Lemma arrivals_returned self request user r (srcs : list string) :
  forall w,
    In r (fst (arrivals self request user srcs w)) ->
    exists src adapter w0 found w1,
      In src srcs
      /\ matching_adapter W self src = Some adapter
      /\ Py.contains ("workplace:read:" ++ src) (scopes user) = true
      /\ adapter (query request) (dict_get user_tokens src)
           (max_results request) w0 = (Return found, w1)
      /\ In r found.
Proof.
  induction srcs as [|s srcs IH]; intros w Hin; [contradiction|].
  cbn [Spec.arrivals] in Hin.
  assert (Hrest : forall w',
             In r (fst (arrivals self request user srcs w')) ->
             exists src adapter w0 found w1,
               In src (s :: srcs)
               /\ matching_adapter W self src = Some adapter
               /\ Py.contains ("workplace:read:" ++ src) (scopes user) = true
               /\ adapter (query request) (dict_get user_tokens src)
                    (max_results request) w0 = (Return found, w1)
               /\ In r found).
  { intros w' H. destruct (IH w' H) as (src & a & w0 & found & w1 & Hs & Hrest).
    exists src, a, w0, found, w1. split; [now right | exact Hrest]. }
  destruct (matching_adapter W self s) as [adapter|] eqn:Ha; [|now apply Hrest in Hin].
  destruct (Py.contains _ (scopes user)) eqn:Hc; [|now apply Hrest in Hin].
  destruct (adapter _ _ _ w) as [o w'] eqn:Hcall.
  destruct (arrivals self request user srcs w') as [more w''] eqn:Hmore.
  simpl in Hin. apply in_app_or in Hin. destruct Hin as [Hin | Hin].
  - destruct o as [found|e]; [|contradiction].
    exists s, adapter, w, found, w'. repeat split; auto. now left.
  - apply (Hrest w'). now rewrite Hmore.
Qed.

Lemma slice_sort_In (r : SearchResult) (l : list SearchResult) (k : Z) :
  In r (Py.slice_to (Py.sort_desc score l) k) -> In r l.
Proof.
  destruct (slice_to_prefix (Py.sort_desc score l) k) as [n ->]. intro H.
  apply firstn_In in H.
  eapply Permutation_in; [apply Permutation_sym, sort_desc_perm | exact H].
Qed.

(* =================================================================== *)
(** ** The claims                                                       *)
(* =================================================================== *)

(** C1 (as the code has it).  [call_tool] lets the [workplace_search] call
    through whenever the claim set holds a scope equal to
    [workplace:read] or [workplace:read] followed by a [:]-delimited
    suffix, and rejects it with HTTP 403 when no scope starts with
    [workplace:read]; [check_scope] accepts exactly when the required
    string is itself one of the scopes, and rejects with HTTP 403
    otherwise.  A rejection is an error, never an allow. *)
Theorem C1_scope_checks ws tool_call user required (st : State) :
  (spec_authorize (scopes user) "workplace:read" = true ->
   ~ forbidden (fst (call_tool ws "workplace_search" tool_call user st)))
  /\ (Py.any (fun scope => Py.startswith scope "workplace:read") (scopes user)
        = false ->
      forbidden (fst (call_tool ws "workplace_search" tool_call user st)))
  /\ (In required (scopes user) ->
      check_scope W required user st = (Return user, st))
  /\ (~ In required (scopes user) ->
      check_scope W required user st =
        (Raise (HTTPException 403
                  ("Insufficient permissions. Required scope: " ++ required)),
         st)).
Proof.
  repeat split.
  - intros Hspec [detail Hf].
    apply spec_authorize_any in Hspec.
    destruct (call_tool ws "workplace_search" tool_call user st) as [o st'] eqn:Hrun.
    destruct (call_tool_passes _ _ _ _ _ _ Hspec Hrun) as [[r Hr] | Hr];
      simpl in Hf; rewrite Hr in Hf; discriminate.
  - intro Hgate.
    destruct (call_tool_rejects ws tool_call user st Hgate) as [st' ->].
    simpl. now eexists.
  - intro Hin. apply contains_In in Hin.
    unfold check_scope. now rewrite Hin.
  - intro Hout. unfold check_scope.
    destruct (Py.contains required (scopes user)) eqn:E; [|reflexivity].
    apply contains_In in E. contradiction.
Qed.

(** C2.  Whatever the adapters do, [search] returns a response: an
    adapter that raises is absorbed.  The results are the first
    [max_results] of the sorted arrivals; each of them was returned by the
    adapter of an authorized source; and a call that raised contributes
    nothing to the arrivals, which are those of the remaining sources. *)
Theorem C2_adapter_failure_absorbed self request user (st : State) :
  (exists resp st',
     search self request user st = (Return resp, st')
     /\ results resp =
          Py.slice_to
            (Py.sort_desc score
               (fst (arrivals self request user (sources request)
                       (snd (utcnow (world W st))))))
            (max_results request)
     /\ forall r,
          In r (results resp) ->
          exists src adapter w0 found w1,
            In src (sources request)
            /\ matching_adapter W self src = Some adapter
            /\ Py.contains ("workplace:read:" ++ src) (scopes user) = true
            /\ adapter (query request) (dict_get user_tokens src)
                 (max_results request) w0 = (Return found, w1)
            /\ In r found)
  /\ (forall src rest adapter w e w',
        matching_adapter W self src = Some adapter ->
        Py.contains ("workplace:read:" ++ src) (scopes user) = true ->
        adapter (query request) (dict_get user_tokens src)
          (max_results request) w = (Raise e, w') ->
        arrivals self request user (src :: rest) w
          = arrivals self request user rest w').
Proof.
  split.
  - rewrite search_returns. cbv zeta.
    eexists. eexists. split; [reflexivity|]. simpl. split; [reflexivity|].
    intros r Hin. apply slice_sort_In in Hin.
    eapply arrivals_returned, Hin.
  - intros. eapply arrivals_failed; eauto.
Qed.

(** C3.  With [max_results = k] in [1..50], the response holds
    [min(k, n)] results, [n] being the number of results collected from
    the authorized sources, and never more than [k]: the cut is made once,
    on the combined sorted sequence. *)
Theorem C3_truncated_to_max_results self request user (st : State) :
  1 <= max_results request <= 50 ->
  exists resp st',
    search self request user st = (Return resp, st')
    /\ let combined :=
         fst (arrivals self request user (sources request)
                (snd (utcnow (world W st)))) in
       results resp =
         firstn (Z.to_nat (max_results request)) (Py.sort_desc score combined)
       /\ length (results resp)
          = Nat.min (Z.to_nat (max_results request)) (length combined)
       /\ Z.of_nat (length (results resp)) <= max_results request
       /\ total_count resp = Z.of_nat (length (results resp)).
Proof.
  intro Hk. rewrite search_returns. cbv zeta.
  eexists. eexists. split; [reflexivity|]. simpl.
  rewrite slice_to_nonneg by lia.
  rewrite length_firstn, sort_desc_length.
  repeat split. lia.
Qed.

(** C4.  The results are in descending order of score, and for every
    score the results with that score appear in their order of arrival:
    they are an initial part of the arrivals with that score. *)
Theorem C4_sorted_and_stable self request user (st : State) :
  exists resp st',
    search self request user st = (Return resp, st')
    /\ StronglySorted (key_ge score) (results resp)
    /\ forall q,
         exists n,
           with_key score q (results resp) =
             firstn n
               (with_key score q
                  (fst (arrivals self request user (sources request)
                          (snd (utcnow (world W st)))))).
Proof.
  rewrite search_returns. cbv zeta.
  eexists. eexists. split; [reflexivity|]. simpl.
  destruct (slice_to_prefix
              (Py.sort_desc score
                 (fst (arrivals self request user (sources request)
                         (snd (utcnow (world W st))))))
              (max_results request)) as [n ->].
  split.
  - apply firstn_sorted, sort_desc_sorted.
  - intro q. unfold with_key at 1.
    destruct (filter_firstn (fun a => Qeq_bool (score a) q) n
                (Py.sort_desc score
                   (fst (arrivals self request user (sources request)
                           (snd (utcnow (world W st))))))) as [m ->].
    exists m. f_equal. apply sort_desc_stable.
Qed.

(** C5 (as the code has it).  [verify_descope_token] fails with
    HTTP 401 "Invalid token" when the provider answers with any status
    other than 200, and when JWT decoding raises [JWTError];
    [get_current_user] passes that error on.  When the provider call
    itself raises, the exception leaves [verify_descope_token] unchanged
    and [get_current_user] reports HTTP 401 "Authentication failed": the
    two kinds differ in the detail text, not in the status code. *)
Theorem C5_verifier_failures token (st : State) :
  (forall code w',
      descope_get_keys (DESCOPE_DOMAIN config ++ "/keys") token (world W st)
        = (Return code, w') ->
      code <> 200 ->
      fst (verify_descope_token token st)
        = Raise (HTTPException 401 "Invalid token")
      /\ fst (get_current_user token st)
         = Raise (HTTPException 401 "Invalid token"))
  /\ (forall w1 msg w2,
        descope_get_keys (DESCOPE_DOMAIN config ++ "/keys") token (world W st)
          = (Return 200, w1) ->
        jwt_decode token (JWT_SECRET_KEY config) JWT_ALGORITHM w1
          = (Raise (JWTError msg), w2) ->
        fst (verify_descope_token token st)
          = Raise (HTTPException 401 "Invalid token")
        /\ fst (get_current_user token st)
           = Raise (HTTPException 401 "Invalid token"))
  /\ (forall e w',
        descope_get_keys (DESCOPE_DOMAIN config ++ "/keys") token (world W st)
          = (Raise e, w') ->
        is_JWTError e = false ->
        is_HTTPException e = false ->
        fst (verify_descope_token token st) = Raise e
        /\ fst (get_current_user token st)
           = Raise (HTTPException 401 "Authentication failed")).
Proof.
  repeat apply conj.
  - intros code w' Hget Hcode.
    pose proof (verify_status_not_200 token st code w' Hget Hcode) as Hv.
    rewrite (get_current_user_raises _ _ _ _ Hv), Hv. now split.
  - intros w1 msg w2 Hget Hdec.
    pose proof (verify_decode_fails token st w1 msg w2 Hget Hdec) as Hv.
    rewrite (get_current_user_raises _ _ _ _ Hv), Hv. now split.
  - intros e w' Hget Hj Hh.
    pose proof (verify_provider_raises token st e w' Hget Hj) as Hv.
    rewrite (get_current_user_raises _ _ _ _ Hv), Hv, Hh. now split.
Qed.

(** C6.  A request with an empty source list gets a response with no
    result and [total_count = 0]; nothing is raised. *)
Theorem C6_empty_sources self q k ic user (st : State) :
  exists resp st',
    search self {| query := q; sources := []; max_results := k;
                   include_content := ic |} user st = (Return resp, st')
    /\ results resp = [] /\ total_count resp = 0.
Proof.
  rewrite search_returns. cbv zeta.
  eexists. eexists. split; [reflexivity|]. simpl.
  now rewrite slice_to_nil.
Qed.

(** C7.  With both per-source scopes, query "budget", both sources and
    [max_results = 1], the mock service answers with exactly one result:
    the Google Drive document, whose score is above that of the Notion
    page; the sources are echoed and [total_count = 1]. *)
Theorem C7_end_to_end uid em ex ic (st : State) :
  let user := {| user_id := uid; email := em;
                 scopes := ["workplace:read:google_drive"; "workplace:read:notion"];
                 exp := ex |} in
  let request := {| query := "budget"; sources := ["google_drive"; "notion"];
                    max_results := 1; include_content := ic |} in
  let w1 := snd (utcnow (world W st)) in
  let w2 := snd (utcnow w1) in
  exists resp st' drive_doc notion_page,
    search (mock_service W utcnow) request user st = (Return resp, st')
    /\ fst (mock_search_google_drive W utcnow "budget"
              (Some "mock_google_token") 1 w1) = Return [drive_doc]
    /\ fst (mock_search_notion W utcnow "budget"
              (Some "mock_notion_token") 1 w2) = Return [notion_page]
    /\ (score notion_page < score drive_doc)%Q
    /\ source drive_doc = "google_drive"
    /\ title drive_doc = "Document about budget"
    /\ results resp = [drive_doc]
    /\ response_query resp = "budget"
    /\ response_sources resp = ["google_drive"; "notion"]
    /\ total_count resp = 1.
Proof.
  intros user request w1 w2. rewrite search_returns. cbv zeta.
  subst w2. fold w1.
  destruct (utcnow w1) as [t1 w2] eqn:E1.
  destruct (utcnow w2) as [t2 w3] eqn:E2.
  eexists. eexists. eexists. eexists.
  split; [reflexivity|].
  simpl. unfold mock_search_google_drive, mock_search_notion, bind, now, ret.
  rewrite E1. simpl. rewrite E2. simpl.
  repeat split; reflexivity.
Qed.

(** C8.  Constructing a request with [max_results = k] succeeds exactly
    when [1 <= k <= 50], and then the request holds [k] itself; any other
    [k] is a validation error, never a value moved into the range. *)
Theorem C8_max_results_validated (S : Type) q srcs k ic (s : S) :
  let args := {| arg_query := Some q; arg_sources := srcs;
                 arg_max_results := Some k; arg_include_content := ic |} in
  (1 <= k <= 50 ->
   exists request,
     WorkplaceSearchRequest_init args s = (Return request, s)
     /\ max_results request = k)
  /\ (~ 1 <= k <= 50 ->
      exists msg,
        WorkplaceSearchRequest_init args s = (Raise (ValidationError msg), s)).
Proof.
  intro args. unfold WorkplaceSearchRequest_init, ge_le. simpl.
  split; intro Hk.
  - destruct (Z.leb_spec 1 k); [|lia]. destruct (Z.leb_spec k 50); [|lia].
    simpl. unfold ret. eauto.
  - destruct (Z.leb_spec 1 k); simpl.
    + destruct (Z.leb_spec k 50); [lia|]. simpl.
      destruct (Z.ltb_spec k 1); [lia|]. unfold raise. eauto.
    + destruct (Z.ltb_spec k 1); [|lia]. unfold raise. eauto.
Qed.

(** C9 (as the code has it).  A source name no adapter recognizes adds no
    result and raises nothing: the results, the count, the query, the
    elapsed time and the effects are those of the request without that
    name, while the [sources] field of the response echoes the list as it
    was requested, the unrecognized name included. *)
Theorem C9_unrecognized_source self q before src after k ic user (st : State) :
  recognized src = false ->
  let asked := {| query := q; sources := before ++ src :: after;
                  max_results := k; include_content := ic |} in
  let without := {| query := q; sources := before ++ after;
                    max_results := k; include_content := ic |} in
  exists resp st',
    search self without user st = (Return resp, st')
    /\ search self asked user st
       = (Return (with_sources resp (before ++ src :: after)), st').
Proof.
  intros Hsrc asked without. rewrite !search_returns. cbv zeta. simpl.
  destruct (arrivals_unrecognized self asked user before src after Hsrc
              (snd (utcnow (world W st)))) as [Ha Hf].
  destruct (arrivals_request_ext self asked without user (before ++ after)
              eq_refl eq_refl (snd (utcnow (world W st)))) as [Ha' Hf'].
  rewrite Ha, Hf, Ha', Hf'. eexists. eexists. split; reflexivity.
Qed.

(** C10.  [search] gates each source by the membership of
    [workplace:read:<source>] in the scopes: a source whose scope is not a
    member adds nothing.  So a claim set whose only scope is the broad
    [workplace:read] passes the permission check of [call_tool], yet
    [search] gives it no result, for every query, source list and cap. *)
Theorem C10_broad_scope_no_results ws tool_call self q srcs k ic uid em ex
  (st : State) :
  let user := {| user_id := uid; email := em; scopes := ["workplace:read"];
                 exp := ex |} in
  let request := {| query := q; sources := srcs; max_results := k;
                    include_content := ic |} in
  (forall other acc src st1,
      Py.contains ("workplace:read:" ++ src) (scopes other) = false ->
      search_source self request other acc src st1 = (Return acc, st1))
  /\ ~ forbidden (fst (call_tool ws "workplace_search" tool_call user st))
  /\ exists resp st',
       search self request user st = (Return resp, st')
       /\ results resp = [] /\ total_count resp = 0.
Proof.
  intros user request. split; [|split].
  - intros other acc src st1 Hout. rewrite search_source_step, Hout.
    now destruct (matching_adapter W self src).
  - intros [detail Hf].
    destruct (call_tool ws "workplace_search" tool_call user st) as [o st'] eqn:Hrun.
    assert (Hgate : Py.any (fun scope => Py.startswith scope "workplace:read")
                      (scopes user) = true) by reflexivity.
    destruct (call_tool_passes _ _ _ _ _ _ Hgate Hrun) as [[r Hr] | Hr];
      simpl in Hf; rewrite Hr in Hf; discriminate.
  - rewrite search_returns. cbv zeta.
    eexists. eexists. split; [reflexivity|]. simpl.
    match goal with
    | |- context [arrivals ?s ?r ?u ?l ?w] =>
        destruct (arrivals_unauthorized s r u l source_scope_not_broad w)
          as [-> _]
    end.
    simpl. now rewrite slice_to_nil.
Qed.

End GatewayFacts.

(* ===================================================================== *)
(** ** The claims on concrete scenarios                                   *)
(* ===================================================================== *)

Section Scenarios.
Import Scenario.

Local Abbreviation run_call_tool :=
  (call_tool nat tick post_ok wall_ms dumps cfg (mock_service nat tick)
     "workplace_search" budget_call).
Local Abbreviation run_search := (search nat tick wall_ms).
Local Abbreviation run_verify provider decoder :=
  (verify_descope_token nat provider decoder cfg "token").
Local Abbreviation run_get_current_user provider decoder :=
  (get_current_user nat provider decoder cfg "token").

(** The rule of the specification does not describe either check:
    [check_scope] rejects [workplace:read:google_drive] for
    [workplace:read], which the rule grants, and [call_tool] lets
    [workplace:readonly] through, which the rule does not grant. *)
Lemma C1_counterexample :
  (spec_authorize (scopes drive_reader) "workplace:read" = true
   /\ forbidden (fst (check_scope nat "workplace:read" drive_reader st0)))
  /\ (spec_authorize (scopes readonly_user) "workplace:read" = false
      /\ exists r st', run_call_tool readonly_user st0 = (Return r, st')).
Proof.
  split; split; try reflexivity.
  - now eexists.
  - vm_compute. eauto.
Qed.

Lemma C1_scope_checks_witness :
  (spec_authorize (scopes drive_reader) "workplace:read" = true
   /\ ~ forbidden (fst (run_call_tool drive_reader st0)))
  /\ (Py.any (fun scope => Py.startswith scope "workplace:read")
        (scopes (claims ["workplace:write"])) = false
      /\ forbidden (fst (run_call_tool (claims ["workplace:write"]) st0)))
  /\ (In "workplace:read:google_drive" (scopes drive_reader)
      /\ check_scope nat "workplace:read:google_drive" drive_reader st0
         = (Return drive_reader, st0))
  /\ (~ In "workplace:write" (scopes drive_reader)
      /\ check_scope nat "workplace:write" drive_reader st0
         = (Raise (HTTPException 403
                     "Insufficient permissions. Required scope: workplace:write"),
            st0)).
Proof.
  assert (Hout : ~ In "workplace:write" (scopes drive_reader)).
  { simpl. intros [H | []]. discriminate H. }
  repeat apply conj.
  - reflexivity.
  - apply (C1_scope_checks nat tick post_ok wall_ms dumps cfg
             (mock_service nat tick) budget_call drive_reader
             "workplace:write" st0).
    reflexivity.
  - reflexivity.
  - apply (C1_scope_checks nat tick post_ok wall_ms dumps cfg
             (mock_service nat tick) budget_call (claims ["workplace:write"])
             "workplace:write" st0).
    reflexivity.
  - simpl. now left.
  - apply (C1_scope_checks nat tick post_ok wall_ms dumps cfg
             (mock_service nat tick) budget_call drive_reader
             "workplace:read:google_drive" st0).
    simpl. now left.
  - exact Hout.
  - apply (C1_scope_checks nat tick post_ok wall_ms dumps cfg
             (mock_service nat tick) budget_call drive_reader
             "workplace:write" st0).
    exact Hout.
Defined.

(** With the Google Drive adapter timing out, the search succeeds and
    returns the Notion page alone; the failure is logged. *)
Example search_with_drive_down :
  exists notion_page t,
    run_search drive_down (budget ["google_drive"; "notion"] 5) both_reader st0
      = (Return {| results := [notion_page]; total_count := 1;
                   response_query := "budget";
                   response_sources := ["google_drive"; "notion"];
                   execution_time_ms := t |},
         {| world := 3%nat; log := ["Error searching google_drive: timeout"] |})
    /\ source notion_page = "notion".
Proof. eexists. eexists. split; [vm_compute; reflexivity | reflexivity]. Qed.

Lemma C2_adapter_failure_absorbed_witness :
  (exists resp st',
     run_search drive_down (budget ["google_drive"; "notion"] 5) both_reader st0
       = (Return resp, st')
     /\ results resp =
          Py.slice_to
            (Py.sort_desc score
               (fst (arrivals nat drive_down
                       (budget ["google_drive"; "notion"] 5) both_reader
                       ["google_drive"; "notion"] 1%nat)))
            5)
  /\ (matching_adapter nat drive_down "google_drive"
        = Some (search_google_drive nat drive_down)
      /\ Py.contains "workplace:read:google_drive" (scopes both_reader) = true
      /\ search_google_drive nat drive_down "budget" (Some "mock_google_token")
           5 1%nat = (Raise (RequestError "timeout"), 1%nat)
      /\ arrivals nat drive_down (budget ["google_drive"; "notion"] 5)
           both_reader ["google_drive"; "notion"] 1%nat
         = arrivals nat drive_down (budget ["google_drive"; "notion"] 5)
             both_reader ["notion"] 1%nat).
Proof.
  pose proof (C2_adapter_failure_absorbed nat tick wall_ms drive_down
                (budget ["google_drive"; "notion"] 5) both_reader st0)
    as [[resp [st' [Hrun [Hres _]]]] Hfail].
  split; [exists resp, st'; split; [exact Hrun | exact Hres]|].
  split; [reflexivity|]. split; [reflexivity|]. split; [reflexivity|].
  apply (Hfail "google_drive" ["notion"] (search_google_drive nat drive_down)
           1%nat (RequestError "timeout") 1%nat); reflexivity.
Defined.

Lemma C3_truncated_to_max_results_witness :
  1 <= max_results (budget ["google_drive"; "notion"] 1) <= 50
  /\ exists resp st',
       run_search (mock_service nat tick) (budget ["google_drive"; "notion"] 1)
         both_reader st0 = (Return resp, st')
       /\ length (results resp) = 1%nat
       /\ length (fst (arrivals nat (mock_service nat tick)
                         (budget ["google_drive"; "notion"] 1) both_reader
                         ["google_drive"; "notion"] 1%nat)) = 2%nat.
Proof.
  assert (Hk : 1 <= max_results (budget ["google_drive"; "notion"] 1) <= 50)
    by (simpl; lia).
  split; [exact Hk|].
  destruct (C3_truncated_to_max_results nat tick wall_ms (mock_service nat tick)
              (budget ["google_drive"; "notion"] 1) both_reader st0 Hk)
    as [resp [st' [Hrun [_ [Hlen _]]]]].
  exists resp, st'. split; [exact Hrun|]. split; [exact Hlen | reflexivity].
Defined.

(** The verifier has no error of its own for an unavailable provider.  A
    provider that answers 503 Service Unavailable gives the very failure of
    a provider that rejects the token with 401; and when the provider
    cannot be reached at all, [get_current_user] fails exactly as it does
    for a token that was accepted but whose payload lacks [sub]. *)
Lemma C5_counterexample :
  (fst (run_verify (provider_answers 503) decode_accepts st0)
     = Raise (HTTPException 401 "Invalid token")
   /\ run_verify (provider_answers 503) decode_accepts st0
      = run_verify (provider_answers 401) decode_accepts st0
   /\ run_get_current_user (provider_answers 503) decode_accepts st0
      = run_get_current_user (provider_answers 401) decode_accepts st0)
  /\ (fst (run_get_current_user provider_unreachable decode_accepts st0)
        = Raise (HTTPException 401 "Authentication failed")
      /\ fst (run_get_current_user provider_unreachable decode_accepts st0)
         = fst (run_get_current_user (provider_answers 200) decode_no_subject st0)).
Proof. repeat split. Qed.

Lemma C5_verifier_failures_witness :
  (provider_answers 403 (DESCOPE_DOMAIN cfg ++ "/keys") "token" 0%nat
     = (Return 403, 0%nat)
   /\ 403 <> 200
   /\ fst (run_verify (provider_answers 403) decode_accepts st0)
      = Raise (HTTPException 401 "Invalid token")
   /\ fst (run_get_current_user (provider_answers 403) decode_accepts st0)
      = Raise (HTTPException 401 "Invalid token"))
  /\ (provider_answers 200 (DESCOPE_DOMAIN cfg ++ "/keys") "token" 0%nat
        = (Return 200, 0%nat)
      /\ decode_rejects "token" (JWT_SECRET_KEY cfg) JWT_ALGORITHM 0%nat
         = (Raise (JWTError "Signature verification failed."), 0%nat)
      /\ fst (run_verify (provider_answers 200) decode_rejects st0)
         = Raise (HTTPException 401 "Invalid token")
      /\ fst (run_get_current_user (provider_answers 200) decode_rejects st0)
         = Raise (HTTPException 401 "Invalid token"))
  /\ (provider_unreachable (DESCOPE_DOMAIN cfg ++ "/keys") "token" 0%nat
        = (Raise (RequestError "connection refused"), 0%nat)
      /\ is_JWTError (RequestError "connection refused") = false
      /\ is_HTTPException (RequestError "connection refused") = false
      /\ fst (run_verify provider_unreachable decode_accepts st0)
         = Raise (RequestError "connection refused")
      /\ fst (run_get_current_user provider_unreachable decode_accepts st0)
         = Raise (HTTPException 401 "Authentication failed")).
Proof.
  assert (Hne : 403 <> 200) by lia.
  split; [|split].
  - split; [reflexivity|]. split; [exact Hne|].
    destruct (C5_verifier_failures nat (provider_answers 403) decode_accepts
                cfg "token" st0) as [Hstatus _].
    apply (Hstatus 403 0%nat); [reflexivity | exact Hne].
  - split; [reflexivity|]. split; [reflexivity|].
    destruct (C5_verifier_failures nat (provider_answers 200) decode_rejects
                cfg "token" st0) as [_ [Hdecode _]].
    apply (Hdecode 0%nat "Signature verification failed." 0%nat); reflexivity.
  - split; [reflexivity|]. split; [reflexivity|]. split; [reflexivity|].
    destruct (C5_verifier_failures nat provider_unreachable decode_accepts
                cfg "token" st0) as [_ [_ Hraise]].
    apply (Hraise (RequestError "connection refused") 0%nat); reflexivity.
Defined.

Lemma C8_max_results_validated_witness :
  (1 <= 10 <= 50
   /\ exists request,
        WorkplaceSearchRequest_init
          {| arg_query := Some "budget"; arg_sources := None;
             arg_max_results := Some 10; arg_include_content := None |} st0
          = (Return request, st0)
        /\ max_results request = 10)
  /\ (~ 1 <= 51 <= 50
      /\ exists msg,
           WorkplaceSearchRequest_init
             {| arg_query := Some "budget"; arg_sources := None;
                arg_max_results := Some 51; arg_include_content := None |} st0
             = (Raise (ValidationError msg), st0))
  /\ (~ 1 <= 0 <= 50
      /\ exists msg,
           WorkplaceSearchRequest_init
             {| arg_query := Some "budget"; arg_sources := None;
                arg_max_results := Some 0; arg_include_content := None |} st0
             = (Raise (ValidationError msg), st0)).
Proof.
  assert (H10 : 1 <= 10 <= 50) by lia.
  assert (H51 : ~ 1 <= 51 <= 50) by lia.
  assert (H0 : ~ 1 <= 0 <= 50) by lia.
  split; [|split].
  - split; [exact H10|].
    destruct (C8_max_results_validated (State nat) "budget" None 10 None st0)
      as [Hin _].
    exact (Hin H10).
  - split; [exact H51|].
    destruct (C8_max_results_validated (State nat) "budget" None 51 None st0)
      as [_ Hout].
    exact (Hout H51).
  - split; [exact H0|].
    destruct (C8_max_results_validated (State nat) "budget" None 0 None st0)
      as [_ Hout].
    exact (Hout H0).
Defined.

(** A request that names the unrecognized source "slack" does not get the
    response of the request without it: the [sources] field differs. *)
Lemma C9_counterexample :
  recognized "slack" = false
  /\ run_search (mock_service nat tick) (budget ["google_drive"; "slack"] 10)
       drive_reader st0
     <> run_search (mock_service nat tick) (budget ["google_drive"] 10)
          drive_reader st0.
Proof.
  split; [reflexivity|]. intro H.
  apply (f_equal (fun p => match fst p with
                           | Return r => response_sources r
                           | Raise _ => []
                           end)) in H.
  vm_compute in H. discriminate H.
Qed.

Lemma C9_unrecognized_source_witness :
  recognized "slack" = false
  /\ exists resp st',
       run_search (mock_service nat tick)
         (budget (["google_drive"] ++ ["notion"]) 10) both_reader st0
         = (Return resp, st')
       /\ run_search (mock_service nat tick)
            (budget (["google_drive"] ++ "slack" :: ["notion"]) 10)
            both_reader st0
          = (Return (with_sources resp (["google_drive"] ++ "slack" :: ["notion"])),
             st').
Proof.
  assert (H : recognized "slack" = false) by reflexivity.
  split; [exact H|].
  apply (C9_unrecognized_source nat tick wall_ms (mock_service nat tick)
           "budget" ["google_drive"] "slack" ["notion"] 10 true both_reader
           st0 H).
Defined.

(** The broad scope alone: the call is let through and finds nothing. *)
Example broad_reader_finds_nothing :
  fst (run_call_tool broad_reader st0) =
    Return {| response_content :=
                [ TextBlock "Found 0 results for 'budget'";
                  ResourceBlock "workplace://search/budget" "Search Results"
                    "application/json" "{...}" ];
              isError := false |}.
Proof. reflexivity. Qed.

Lemma C10_broad_scope_no_results_witness :
  (Py.contains ("workplace:read:" ++ "google_drive") (scopes broad_reader) = false
   /\ search_source nat (mock_service nat tick)
        (budget ["google_drive"; "notion"] 10) broad_reader [] "google_drive" st0
      = (Return [], st0))
  /\ ~ forbidden (fst (run_call_tool broad_reader st0))
  /\ exists resp st',
       run_search (mock_service nat tick) (budget ["google_drive"; "notion"] 10)
         broad_reader st0 = (Return resp, st')
       /\ results resp = [] /\ total_count resp = 0.
Proof.
  destruct (C10_broad_scope_no_results nat tick post_ok wall_ms dumps cfg
              (mock_service nat tick) budget_call (mock_service nat tick)
              "budget" ["google_drive"; "notion"] 10 true
              "u-1" "user@example.com" 1893456000 st0)
    as [Hgate [Hpass Hnone]].
  split; [|split].
  - split; [reflexivity|]. apply Hgate. reflexivity.
  - exact Hpass.
  - exact Hnone.
Defined.

End Scenarios.

(* ===================================================================== *)
(** ** Further properties of the gateway                                  *)
(* ===================================================================== *)

Section MoreFacts.
Variable W : Type.
Variable utcnow : W -> Z * W.
Variable descope_get_keys : string -> string -> SE W Z.
Variable jwt_decode : string -> string -> string -> SE W JWTPayload.
Variable jwt_encode : InternalClaims -> string -> string -> outcome string.
Variable http_exception_str : Z -> string -> string.
Variable cequence_post : string -> string -> AuditEvent -> SE W unit.
Variable elapsed_ms : Z -> Z -> Z.
Variable json_dumps : WorkplaceSearchResponse -> option string.
Variable config : Config.

Local Abbreviation State := (State W).
Local Abbreviation search := (search W utcnow elapsed_ms).
Local Abbreviation arrivals := (arrivals W).
Local Abbreviation failures := (failures W).
Local Abbreviation log_request := (log_request W utcnow cequence_post config).
Local Abbreviation log_response := (log_response W utcnow cequence_post config).
Local Abbreviation verify_descope_token :=
  (verify_descope_token W descope_get_keys jwt_decode config).
Local Abbreviation get_current_user :=
  (get_current_user W descope_get_keys jwt_decode config).
Local Abbreviation call_tool :=
  (call_tool W utcnow cequence_post elapsed_ms json_dumps config).
Local Abbreviation exchange_descope_token :=
  (exchange_descope_token W utcnow descope_get_keys jwt_decode jwt_encode
     http_exception_str config).

(** What an audit call leaves behind: the world after the gateway call,
    and one log line when that call raised. *)
Lemma audit_post_state url ev line (st : State) :
  try_except
    (lift W (timestamp <- now W utcnow ;;
             cequence_post url (CEQUENCE_API_KEY config) (ev timestamp)))
    (fun e => logger_error W (line ++ exc_str e)) st
  = let t := fst (utcnow (world W st)) in
    let post := cequence_post url (CEQUENCE_API_KEY config) (ev t)
                  (snd (utcnow (world W st))) in
    (Return tt,
     {| world := snd post;
        log := match fst post with
               | Return _ => log W st
               | Raise e => (log W st ++ [(line ++ exc_str e)%string])%list
               end |}).
Proof.
  unfold try_except, lift, bind, now, logger_error.
  destruct (utcnow (world W st)) as [t w]. simpl.
  destruct (cequence_post _ _ _ w) as [[[]|e] w']; reflexivity.
Qed.

(** X1.  The audit calls are best effort.  Whatever the observability
    gateway does with the event, [log_request] and [log_response] return
    normally; the event carries the clock reading taken just before the
    call; and a gateway failure leaves exactly one line in the log. *)
Theorem X1_audit_calls_never_raise uid tool data ms ok (st : State) :
  let t := fst (utcnow (world W st)) in
  let w := snd (utcnow (world W st)) in
  let sent_request :=
    cequence_post (CEQUENCE_GATEWAY_URL config ++ "/api/v1/mcp/requests")
      (CEQUENCE_API_KEY config)
      (RequestEvent t uid tool data MCP_SERVER_NAME MCP_SERVER_VERSION) w in
  let sent_response :=
    cequence_post (CEQUENCE_GATEWAY_URL config ++ "/api/v1/mcp/responses")
      (CEQUENCE_API_KEY config)
      (ResponseEvent t uid tool data ms ok MCP_SERVER_NAME MCP_SERVER_VERSION)
      w in
  log_request uid tool data st
    = (Return tt,
       {| world := snd sent_request;
          log := match fst sent_request with
                 | Return _ => log W st
                 | Raise e =>
                     (log W st
                        ++ [("Failed to log request to Cequence: "
                               ++ exc_str e)%string])%list
                 end |})
  /\ log_response uid tool data ms ok st
     = (Return tt,
        {| world := snd sent_response;
           log := match fst sent_response with
                  | Return _ => log W st
                  | Raise e =>
                      (log W st
                         ++ [("Failed to log response to Cequence: "
                                ++ exc_str e)%string])%list
                  end |}).
Proof.
  intros t w sent_request sent_response. split.
  - unfold Mcp.log_request.
    apply (audit_post_state _
             (fun ts => RequestEvent ts uid tool data
                          MCP_SERVER_NAME MCP_SERVER_VERSION)).
  - unfold Mcp.log_response.
    apply (audit_post_state _
             (fun ts => ResponseEvent ts uid tool data ms ok
                          MCP_SERVER_NAME MCP_SERVER_VERSION)).
Qed.

(** The state at which the handler or the body of [call_tool] continues
    after the request was audited. *)
Lemma call_tool_unfold ws tool tool_call user (st : State) :
  call_tool ws tool tool_call user st =
    let t0 := fst (utcnow (world W st)) in
    let st1 := snd (log_request (user_id user) tool
                      (ArgumentsPayload (arguments tool_call))
                      {| world := snd (utcnow (world W st)); log := log W st |}) in
    try_except
      (if (tool =? "workplace_search")%string then
         (if negb (Py.any (fun scope => Py.startswith scope "workplace:read")
                     (scopes user))
          then raise (HTTPException 403
                        "Insufficient permissions. Required scope: workplace:read:*")
          else ret tt) ;;
         search_request <- WorkplaceSearchRequest_init (arguments tool_call) ;;
         search_response <- search ws search_request user ;;
         t <- lift W (now W utcnow) ;;
         log_response (user_id user) tool (ResponsePayload search_response)
           (elapsed_ms t0 t) true ;;
         dumped <- match json_dumps search_response with
                   | Some text => ret text
                   | None => raise (TypeError "Object is not JSON serializable")
                   end ;;
         ret {| response_content :=
                  [ TextBlock ("Found " ++ Py.str (total_count search_response)
                                 ++ " results for '"
                                 ++ response_query search_response ++ "'");
                    ResourceBlock
                      ("workplace://search/" ++ response_query search_response)
                      "Search Results" "application/json" dumped ];
                isError := false |}
       else raise (HTTPException 404 ("Tool '" ++ tool ++ "' not found")))
      (fun e =>
         t <- lift W (now W utcnow) ;;
         log_response (user_id user) tool EmptyPayload (elapsed_ms t0 t) false ;;
         if is_HTTPException e then raise e
         else
           logger_error W ("Tool execution error: " ++ exc_str e) ;;
           raise (HTTPException 500 "Internal server error"))
      st1.
Proof.
  unfold Mcp.call_tool. unfold bind at 1. rewrite lift_now.
  unfold try_except. unfold bind at 1.
  destruct (log_request_returns W utcnow cequence_post config (user_id user) tool
              (ArgumentsPayload (arguments tool_call))
              {| world := snd (utcnow (world W st)); log := log W st |})
    as [st1 Hlog].
  rewrite Hlog. reflexivity.
Qed.

(** The failure handler of [call_tool], with the state it ends in. *)
Lemma call_tool_handler_state uid tool t0 e (st : State) :
  (t <- lift W (now W utcnow) ;;
   log_response uid tool EmptyPayload (elapsed_ms t0 t) false ;;
   if is_HTTPException e then raise e
   else
     logger_error W ("Tool execution error: " ++ exc_str e) ;;
     raise (HTTPException 500 "Internal server error")) st
  = let t := fst (utcnow (world W st)) in
    let st1 := snd (log_response uid tool EmptyPayload (elapsed_ms t0 t) false
                      {| world := snd (utcnow (world W st)); log := log W st |}) in
    (if is_HTTPException e
     then (Raise e, st1)
     else (Raise (HTTPException 500 "Internal server error"),
           {| world := world W st1;
              log := (log W st1
                        ++ [("Tool execution error: " ++ exc_str e)%string])%list |}))
    :> outcome MCPResponse * State.
Proof.
  unfold bind at 1. rewrite lift_now. unfold bind at 1.
  destruct (log_response_returns W utcnow cequence_post config uid tool EmptyPayload
              (elapsed_ms t0 (fst (utcnow (world W st)))) false
              {| world := snd (utcnow (world W st)); log := log W st |})
    as [st1 Hlog].
  rewrite Hlog. simpl.
  destruct (is_HTTPException e); reflexivity.
Qed.

(** X2.  A tool name other than [workplace_search] is answered with
    HTTP 404 naming the tool, whatever the caller's scopes and arguments:
    the permission check is not reached. *)
Theorem X2_unknown_tool_not_found ws tool tool_call user (st : State) :
  tool <> "workplace_search" ->
  exists st',
    call_tool ws tool tool_call user st
      = (Raise (HTTPException 404 ("Tool '" ++ tool ++ "' not found")), st').
Proof.
  intro Hname. rewrite call_tool_unfold. cbv zeta.
  destruct (String.eqb_spec tool "workplace_search") as [E | _]; [contradiction|].
  unfold try_except, raise at 1.
  rewrite call_tool_handler_state. cbv zeta. simpl. eauto.
Qed.

(** Validation does not depend on the state and leaves it alone. *)
Lemma request_init_pure (S1 S2 : Type) args (s1 : S1) (s2 : S2) :
  WorkplaceSearchRequest_init args s1
    = (fst (WorkplaceSearchRequest_init args s2), s1)
  /\ snd (WorkplaceSearchRequest_init args s2) = s2.
Proof.
  unfold WorkplaceSearchRequest_init.
  destruct (arg_query args); [|now split].
  destruct (ge_le 1 50 _); [now split|].
  destruct (_ <? 1); now split.
Qed.

Lemma request_init_invalid (S : Type) args (s : S) :
  arg_query args = None
  \/ (exists k, arg_max_results args = Some k /\ ~ 1 <= k <= 50) ->
  exists msg,
    WorkplaceSearchRequest_init args s = (Raise (ValidationError msg), s).
Proof.
  unfold WorkplaceSearchRequest_init, raise. intros [Hq | [k [Hk Hout]]].
  - rewrite Hq. eauto.
  - destruct (arg_query args); [|eauto].
    rewrite Hk. simpl. unfold ge_le.
    destruct (Z.leb_spec 1 k); simpl.
    + destruct (Z.leb_spec k 50); [lia|]. simpl.
      destruct (k <? 1); eauto.
    + destruct (k <? 1); eauto.
Qed.

(** X3.  When the caller holds a scope that starts with [workplace:read]
    but the arguments are invalid (no [query], or [max_results] outside
    [1..50]), [call_tool] fails with HTTP 500 "Internal server error": the
    validation error is not reported as a client error, and its text goes
    to the log only. *)
Theorem X3_invalid_arguments_are_500 ws tool_call user (st : State) :
  Py.any (fun scope => Py.startswith scope "workplace:read") (scopes user) = true ->
  arg_query (arguments tool_call) = None
  \/ (exists k, arg_max_results (arguments tool_call) = Some k
                /\ ~ 1 <= k <= 50) ->
  exists st' before msg,
    call_tool ws "workplace_search" tool_call user st
      = (Raise (HTTPException 500 "Internal server error"), st')
    /\ log W st' = (before ++ [("Tool execution error: " ++ msg)%string])%list.
Proof.
  intros Hgate Hbad. rewrite call_tool_unfold. cbv zeta.
  simpl (_ =? _)%string. cbv iota. rewrite Hgate. simpl negb. cbv iota.
  unfold try_except. unfold bind at 1. unfold ret at 1. unfold bind at 1.
  match goal with
  | |- context [WorkplaceSearchRequest_init ?a ?s] =>
      destruct (request_init_invalid State a s Hbad) as [msg ->]
  end.
  rewrite call_tool_handler_state. cbv zeta. simpl.
  eexists. eexists. exists msg. split; reflexivity.
Qed.

(** X4.  When the caller holds a scope that starts with [workplace:read]
    and the arguments are valid, [call_tool] runs [search] once, right
    after auditing the request, and its outcome is decided by the JSON
    encoder alone: a response whose summary is
    "Found N results for '<query>'" with [N] the number of results [search]
    returned and whose resource is [workplace://search/<query>], or
    HTTP 500 when the response cannot be encoded. *)
Theorem X4_call_tool_outcome ws tool_call user request (st : State) :
  Py.any (fun scope => Py.startswith scope "workplace:read") (scopes user) = true ->
  WorkplaceSearchRequest_init (arguments tool_call) st = (Return request, st) ->
  let st1 := snd (log_request (user_id user) "workplace_search"
                    (ArgumentsPayload (arguments tool_call))
                    {| world := snd (utcnow (world W st)); log := log W st |}) in
  exists resp,
    fst (search ws request user st1) = Return resp
    /\ total_count resp = Z.of_nat (length (results resp))
    /\ response_query resp = query request
    /\ fst (call_tool ws "workplace_search" tool_call user st)
       = match json_dumps resp with
         | Some text =>
             Return {| response_content :=
                         [ TextBlock ("Found " ++ Py.str (total_count resp)
                                        ++ " results for '" ++ query request
                                        ++ "'");
                           ResourceBlock ("workplace://search/" ++ query request)
                             "Search Results" "application/json" text ];
                       isError := false |}
         | None => Raise (HTTPException 500 "Internal server error")
         end.
Proof.
  intros Hgate Hinit st1. rewrite call_tool_unfold. cbv zeta. fold st1.
  simpl (_ =? _)%string. cbv iota. rewrite Hgate. simpl negb. cbv iota.
  destruct (request_init_pure State State (arguments tool_call) st1 st) as [Hst1 _].
  rewrite Hinit in Hst1. simpl in Hst1.
  unfold try_except. unfold bind at 1. unfold ret at 1. unfold bind at 1.
  rewrite Hst1. unfold bind at 1.
  rewrite (search_returns W utcnow elapsed_ms ws request user st1). cbv zeta.
  eexists. split; [reflexivity|]. split; [reflexivity|]. split; [reflexivity|].
  unfold bind at 1. rewrite lift_now. unfold bind at 1.
  match goal with
  | |- context [log_response ?u ?t ?d ?ms ?ok ?s] =>
      destruct (log_response_returns W utcnow cequence_post config u t d ms ok s)
        as [st3 ->]
  end.
  unfold bind at 1. simpl results. simpl response_query. simpl total_count.
  match goal with
  | |- context [json_dumps ?r] => destruct (json_dumps r) as [text|]
  end.
  - reflexivity.
  - unfold raise at 1. rewrite call_tool_handler_state. reflexivity.
Qed.

Section AuditTrail.

(** An observation of the outside world: the events the observability
    gateway has been sent so far.  Sending an event adds it, whether or not
    the gateway then fails; the clock and the adapters of the service leave
    the events alone. *)
Variable posted : W -> list AuditEvent.
Variable ws : WorkplaceSearchService W.
Hypothesis post_adds :
  forall url key ev w,
    posted (snd (cequence_post url key ev w)) = (posted w ++ [ev])%list.
Hypothesis clock_keeps : forall w, posted (snd (utcnow w)) = posted w.
Hypothesis drive_keeps :
  forall q t k w, posted (snd (search_google_drive W ws q t k w)) = posted w.
Hypothesis notion_keeps :
  forall q t k w, posted (snd (search_notion W ws q t k w)) = posted w.

Lemma posted_log_request uid tool data (st : State) :
  posted (world W (snd (log_request uid tool data st)))
    = (posted (world W st)
         ++ [RequestEvent (fst (utcnow (world W st))) uid tool data
               MCP_SERVER_NAME MCP_SERVER_VERSION])%list.
Proof.
  unfold Mcp.log_request.
  rewrite (audit_post_state _
             (fun ts => RequestEvent ts uid tool data
                          MCP_SERVER_NAME MCP_SERVER_VERSION)).
  cbv zeta. simpl. now rewrite post_adds, clock_keeps.
Qed.

Lemma posted_log_response uid tool data ms ok (st : State) :
  posted (world W (snd (log_response uid tool data ms ok st)))
    = (posted (world W st)
         ++ [ResponseEvent (fst (utcnow (world W st))) uid tool data ms ok
               MCP_SERVER_NAME MCP_SERVER_VERSION])%list.
Proof.
  unfold Mcp.log_response.
  rewrite (audit_post_state _
             (fun ts => ResponseEvent ts uid tool data ms ok
                          MCP_SERVER_NAME MCP_SERVER_VERSION)).
  cbv zeta. simpl. now rewrite post_adds, clock_keeps.
Qed.

Lemma adapter_keeps src adapter :
  matching_adapter W ws src = Some adapter ->
  forall q t k w, posted (snd (adapter q t k w)) = posted w.
Proof.
  unfold matching_adapter.
  destruct (src =? "google_drive")%string; [intro H; inversion H; apply drive_keeps|].
  destruct (src =? "notion")%string; [intro H; inversion H; apply notion_keeps|].
  discriminate.
Qed.

Lemma posted_arrivals request user (srcs : list string) :
  forall w, posted (snd (arrivals ws request user srcs w)) = posted w.
Proof.
  induction srcs as [|src rest IH]; intro w; [reflexivity|].
  cbn [Spec.arrivals].
  destruct (matching_adapter W ws src) as [adapter|] eqn:Ha; [|apply IH].
  destruct (Py.contains _ (scopes user)); [|apply IH].
  pose proof (adapter_keeps src adapter Ha (query request)
                (dict_get user_tokens src) (max_results request) w) as Hk.
  destruct (adapter _ _ _ w) as [o w'].
  pose proof (IH w') as Hrest.
  destruct (arrivals ws request user rest w') as [more w''].
  cbn [snd] in *. congruence.
Qed.

Lemma posted_search request user (st : State) :
  posted (world W (snd (search ws request user st))) = posted (world W st).
Proof.
  rewrite (search_returns W utcnow elapsed_ms ws request user st). cbv zeta. simpl.
  now rewrite clock_keeps, posted_arrivals, clock_keeps.
Qed.

(** The failure handler of [call_tool] sends one failure event. *)
Lemma posted_handler uid tool t0 e (st : State) :
  exists ev,
    failure_event ev
    /\ posted (world W (snd
         ((t <- lift W (now W utcnow) ;;
           log_response uid tool EmptyPayload (elapsed_ms t0 t) false ;;
           if is_HTTPException e then raise e
           else
             logger_error W ("Tool execution error: " ++ exc_str e) ;;
             raise (HTTPException 500 "Internal server error")) st
          : outcome MCPResponse * State)))
       = (posted (world W st) ++ [ev])%list.
Proof.
  rewrite call_tool_handler_state. cbv zeta.
  eexists. split.
  - do 4 eexists. reflexivity.
  - destruct (is_HTTPException e); simpl;
      rewrite posted_log_response; simpl; rewrite clock_keeps; reflexivity.
Qed.

(** X5.  The audit trail of a call.  Every [call_tool] first sends the
    request event with the caller, the tool and the arguments.  A call that
    returns has sent exactly one more event, a success event carrying a
    search response.  A call that fails always ends by sending a failure
    event with an empty payload; between the two there is nothing, or, when
    the failure came after the search (the response could not be encoded),
    the success event that had already been sent. *)
Theorem X5_audit_trail tool tool_call user (st : State) o st' :
  call_tool ws tool tool_call user st = (o, st') ->
  exists first rest,
    posted (world W st') = (posted (world W st) ++ first :: rest)%list
    /\ request_event (user_id user) tool (arguments tool_call) first
    /\ match o with
       | Return _ => exists done, rest = [done] /\ success_event done
       | Raise _ =>
           exists middle last,
             rest = (middle ++ [last])%list
             /\ failure_event last
             /\ (middle = [] \/ exists done, middle = [done] /\ success_event done)
       end.
Proof.
  rewrite call_tool_unfold. cbv zeta.
  set (st0 := {| world := snd (utcnow (world W st)); log := log W st |}).
  set (st1 := snd (log_request (user_id user) tool
                     (ArgumentsPayload (arguments tool_call)) st0)).
  assert (H1 : posted (world W st1)
               = (posted (world W st)
                    ++ [RequestEvent (fst (utcnow (world W st0))) (user_id user)
                          tool (ArgumentsPayload (arguments tool_call))
                          MCP_SERVER_NAME MCP_SERVER_VERSION])%list).
  { subst st1. rewrite posted_log_request. subst st0. simpl.
    now rewrite clock_keeps. }
  assert (Hfail : forall e (s : State) (t0 : Z),
             posted (world W s) = posted (world W st1) ->
             forall o1 s1,
               (t <- lift W (now W utcnow) ;;
                log_response (user_id user) tool EmptyPayload
                  (elapsed_ms t0 t) false ;;
                if is_HTTPException e then raise e
                else
                  logger_error W ("Tool execution error: " ++ exc_str e) ;;
                  raise (HTTPException 500 "Internal server error")) s
               = (o1, s1) :> outcome MCPResponse * State ->
               exists err last,
                 o1 = Raise err /\ failure_event last
                 /\ posted (world W s1)
                    = (posted (world W st1) ++ [last])%list).
  { intros e s t0 Hs o1 s1 Hrun.
    destruct (posted_handler (user_id user) tool t0 e s) as [ev [Hev Hp]].
    rewrite Hrun in Hp. simpl in Hp.
    rewrite call_tool_handler_state in Hrun. cbv zeta in Hrun.
    destruct (is_HTTPException e); inversion Hrun; subst;
      eexists; exists ev; (split; [reflexivity|]); (split; [exact Hev|]);
      rewrite <- Hs; exact Hp. }
  intro Hrun.
  unfold try_except in Hrun.
  destruct (String.eqb_spec tool "workplace_search") as [-> | Hname].
  - destruct (Py.any _ (scopes user)); simpl negb in Hrun; cbv iota in Hrun.
    + unfold bind at 1 in Hrun. unfold ret at 1 in Hrun.
      unfold bind at 1 in Hrun.
      destruct (request_init_pure State State (arguments tool_call) st1 st1)
        as [_ Hkeep].
      destruct (WorkplaceSearchRequest_init (arguments tool_call) st1)
        as [[request|e] st2] eqn:Hinit; simpl in Hkeep; subst st2.
      * unfold bind at 1 in Hrun.
        pose proof (posted_search request user st1) as Hsearch.
        rewrite (search_returns W utcnow elapsed_ms ws request user st1) in Hrun, Hsearch.
        cbv zeta in Hrun, Hsearch. simpl in Hsearch.
        unfold bind at 1 in Hrun. rewrite lift_now in Hrun.
        unfold bind at 1 in Hrun.
        match type of Hrun with
        | context [log_response ?u ?t ?d ?ms ?ok ?s] =>
            pose proof (posted_log_response u t d ms ok s) as Hresp;
            destruct (log_response_returns W utcnow cequence_post config
                        u t d ms ok s) as [st3 Hlog]
        end.
        rewrite Hlog in Hrun, Hresp. simpl in Hresp.
        rewrite clock_keeps, Hsearch in Hresp.
        unfold bind at 1 in Hrun.
        match type of Hrun with
        | context [json_dumps ?r] => destruct (json_dumps r) as [text|]
        end.
        -- unfold ret in Hrun. injection Hrun as <- <-.
           rewrite Hresp, H1, <- app_assoc. simpl.
           eexists. eexists.
           split; [reflexivity|]. split; [eexists; reflexivity|].
           eexists. split; [reflexivity|]. do 5 eexists. reflexivity.
        -- unfold raise at 1 in Hrun.
           destruct (posted_handler (user_id user) "workplace_search"
                       (fst (utcnow (world W st)))
                       (TypeError "Object is not JSON serializable") st3)
             as [ev [Hev Hp]].
           rewrite Hrun in Hp. simpl in Hp.
           rewrite call_tool_handler_state in Hrun. cbv zeta in Hrun.
           simpl in Hrun. injection Hrun as <- _.
           rewrite Hp, Hresp, H1, <- !app_assoc. simpl.
           eexists. eexists.
           split; [reflexivity|]. split; [eexists; reflexivity|].
           eexists. exists ev. split; [|split; [exact Hev|]].
           ++ instantiate (1 := [_]). reflexivity.
           ++ right. eexists. split; [reflexivity|]. do 5 eexists. reflexivity.
      * cbv beta iota in Hrun.
        destruct (Hfail e st1 (fst (utcnow (world W st))) eq_refl _ _ Hrun)
          as [err [last [-> [Hlast Hp]]]].
        rewrite Hp, H1, <- app_assoc. simpl.
        eexists. eexists.
        split; [reflexivity|]. split; [eexists; reflexivity|].
        exists [], last. repeat split; auto.
    + unfold bind at 1 in Hrun. unfold raise at 1 in Hrun.
      cbv beta iota in Hrun.
      destruct (Hfail (HTTPException 403
                         "Insufficient permissions. Required scope: workplace:read:*")
                  st1 (fst (utcnow (world W st))) eq_refl _ _ Hrun)
        as [err [last [-> [Hlast Hp]]]].
      rewrite Hp, H1, <- app_assoc. simpl.
      eexists. eexists.
      split; [reflexivity|]. split; [eexists; reflexivity|].
      exists [], last. repeat split; auto.
  - unfold raise at 1 in Hrun. cbv beta iota in Hrun.
    destruct (Hfail (HTTPException 404 ("Tool '" ++ tool ++ "' not found"))
                st1 (fst (utcnow (world W st))) eq_refl _ _ Hrun)
      as [err [last [-> [Hlast Hp]]]].
    rewrite Hp, H1, <- app_assoc. simpl.
    eexists. eexists.
    split; [reflexivity|]. split; [eexists; reflexivity|].
    exists [], last. repeat split; auto.
Qed.

End AuditTrail.

(** *** Tool listing *)

Lemma list_tools_cases (user : UserClaims) :
  list_tools user =
    if Py.any (fun scope => Py.startswith scope "workplace:read:") (scopes user)
    then MCP_TOOLS else [].
Proof.
  unfold list_tools. simpl.
  destruct (Py.any _ (scopes user)); reflexivity.
Qed.

Lemma any_startswith_shorter (granted : list string) (a b : string) :
  Py.any (fun scope => Py.startswith scope (a ++ b)) granted = true ->
  Py.any (fun scope => Py.startswith scope a) granted = true.
Proof.
  unfold Py.any, Py.startswith. rewrite !existsb_exists.
  intros [s [Hin Hs]]. exists s. split; [exact Hin|].
  eapply prefix_app_l, Hs.
Qed.

(** X6.  Listing and calling agree in one direction.  [list_tools] shows a
    tool exactly when some scope starts with [workplace:read:], and every
    tool it shows can be called by the same user: [call_tool] answers
    neither 404 nor 403 for it, but a response or HTTP 500. *)
Theorem X6_listed_tools_are_callable ws tool tool_call user (st : State) o st' :
  In tool (list_tools user) ->
  call_tool ws (name tool) tool_call user st = (o, st') ->
  Py.any (fun scope => Py.startswith scope "workplace:read:") (scopes user) = true
  /\ ((exists r, o = Return r)
      \/ o = Raise (HTTPException 500 "Internal server error")).
Proof.
  rewrite list_tools_cases.
  destruct (Py.any (fun scope => Py.startswith scope "workplace:read:")
              (scopes user)) eqn:Hany; [|contradiction].
  intros [<- | []] Hrun. split; [reflexivity|].
  eapply (call_tool_passes W utcnow cequence_post elapsed_ms json_dumps config);
    [|exact Hrun].
  apply (any_startswith_shorter (scopes user) "workplace:read" ":"), Hany.
Qed.

(** X7.  The input schema advertised for [workplace_search] agrees with
    what the request constructor enforces: [max_results] is accepted
    exactly between the schema's minimum and maximum, the omitted fields
    take the schema's defaults, and [query], the only required field of the
    schema, is the only one whose absence is an error. *)
Theorem X7_schema_matches_validation (tool : MCPTool) :
  In tool MCP_TOOLS ->
  exists lo hi k0 srcs0 ic0,
    schema_entry tool "max_results" "minimum" = Some (JInt lo)
    /\ schema_entry tool "max_results" "maximum" = Some (JInt hi)
    /\ schema_entry tool "max_results" "default" = Some (JInt k0)
    /\ schema_entry tool "sources" "default" = Some (JArray (map JString srcs0))
    /\ schema_entry tool "include_content" "default" = Some (JBool ic0)
    /\ json_get "required" (inputSchema tool) = Some (JArray [JString "query"])
    /\ forall (S : Type) (s : S) q srcs k ic,
         ((exists r,
              WorkplaceSearchRequest_init
                {| arg_query := Some q; arg_sources := srcs;
                   arg_max_results := Some k; arg_include_content := ic |} s
                = (Return r, s))
          <-> lo <= k <= hi)
         /\ WorkplaceSearchRequest_init
              {| arg_query := Some q; arg_sources := None;
                 arg_max_results := None; arg_include_content := None |} s
            = (Return {| query := q; sources := srcs0; max_results := k0;
                         include_content := ic0 |}, s)
         /\ exists msg,
              WorkplaceSearchRequest_init
                {| arg_query := None; arg_sources := srcs;
                   arg_max_results := Some k; arg_include_content := ic |} s
                = (Raise (ValidationError msg), s).
Proof.
  intros [<- | []].
  exists 1, 50, 10, ["google_drive"; "notion"], true.
  repeat (split; [reflexivity|]).
  intros S s q srcs k ic. split; [|split; [reflexivity | now eexists]].
  unfold WorkplaceSearchRequest_init, ge_le. simpl. split.
  - intros [r Hr].
    destruct (Z.leb_spec 1 k); simpl in Hr.
    + destruct (Z.leb_spec k 50); [lia|]. simpl in Hr.
      destruct (k <? 1); discriminate.
    + destruct (k <? 1); discriminate.
  - intro Hk. destruct (Z.leb_spec 1 k); [|lia].
    destruct (Z.leb_spec k 50); [|lia]. simpl. unfold ret. eauto.
Qed.

(** *** Authentication *)

(** X8.  A token the provider accepts and whose payload has [sub],
    [email] and [exp] authenticates, with the scopes of its [permissions]
    entry and nothing logged.  When the payload has no [permissions] entry
    the claim set has no scope at all: the user is authenticated, is shown
    no tool, and every [workplace_search] call is refused with HTTP 403. *)
Theorem X8_token_claims token (st : State) w1 w2 uid em perms ex :
  descope_get_keys (DESCOPE_DOMAIN config ++ "/keys") token (world W st)
    = (Return 200, w1) ->
  jwt_decode token (JWT_SECRET_KEY config) JWT_ALGORITHM w1
    = (Return {| sub := Some uid; payload_email := Some em;
                 permissions := perms; payload_exp := Some ex |}, w2) ->
  let user := {| user_id := uid; email := em;
                 scopes := Py.get_default perms []; exp := ex |} in
  get_current_user token st = (Return user, {| world := w2; log := log W st |})
  /\ (perms = None ->
      list_tools user = []
      /\ forall ws tool_call (st2 : State),
           forbidden (fst (call_tool ws "workplace_search" tool_call user st2))).
Proof.
  intros Hget Hdec user. split.
  - unfold Mcp.get_current_user, Mcp.verify_descope_token, try_except, bind, lift.
    rewrite Hget. simpl. rewrite Hdec. reflexivity.
  - intros ->. split; [reflexivity|]. intros ws tool_call st2.
    destruct (call_tool_rejects W utcnow cequence_post elapsed_ms json_dumps
                config ws tool_call user st2 eq_refl) as [st3 ->].
    simpl. now eexists.
Qed.

(** The ways [verify_descope_token] can end when the provider and the JWT
    library raise no [HTTPException] of their own. *)
Lemma verify_outcomes token (st : State) o st' :
  (forall url tok w e w',
      descope_get_keys url tok w = (Raise e, w') -> is_HTTPException e = false) ->
  (forall tok key alg w e w',
      jwt_decode tok key alg w = (Raise e, w') -> is_HTTPException e = false) ->
  verify_descope_token token st = (o, st') ->
  (exists user, o = Return user)
  \/ o = Raise (HTTPException 401 "Invalid token")
  \/ exists e, o = Raise e /\ is_HTTPException e = false.
Proof.
  intros Hkeys Hdecode.
  unfold Mcp.verify_descope_token, try_except, bind, lift.
  destruct (descope_get_keys _ token (world W st)) as [[code|e] w1] eqn:Hget.
  - destruct (code =? 200); simpl.
    + destruct (jwt_decode token _ _ w1) as [[payload|e] w2] eqn:Hdec.
      * unfold UserClaims_init.
        destruct (sub payload), (payload_email payload), (payload_exp payload);
          unfold ret, raise; simpl; intro H; inversion H; eauto.
      * pose proof (Hdecode _ _ _ _ _ _ Hdec) as He.
        destruct (is_JWTError e) eqn:Hj; unfold bind, raise, logger_error;
          intro H; inversion H; eauto.
    + unfold raise. intro H. inversion H. auto.
  - pose proof (Hkeys _ _ _ _ _ Hget) as He.
    destruct (is_JWTError e) eqn:Hj; unfold bind, raise, logger_error;
      intro H; inversion H; eauto.
Qed.

(** X9.  Authentication fails with HTTP 401 only.  When the provider call
    and the JWT library raise no [HTTPException] of their own, whatever
    else they do, [get_current_user] returns the claims or raises an
    [HTTPException] with status 401, whose detail is "Invalid token" or
    "Authentication failed"; no other exception reaches the caller. *)
Theorem X9_authentication_fails_with_401 token (st : State) o st' :
  (forall url tok w e w',
      descope_get_keys url tok w = (Raise e, w') -> is_HTTPException e = false) ->
  (forall tok key alg w e w',
      jwt_decode tok key alg w = (Raise e, w') -> is_HTTPException e = false) ->
  get_current_user token st = (o, st') ->
  (exists user, o = Return user)
  \/ o = Raise (HTTPException 401 "Invalid token")
  \/ o = Raise (HTTPException 401 "Authentication failed").
Proof.
  intros Hkeys Hdecode. unfold Mcp.get_current_user, try_except.
  destruct (verify_descope_token token st) as [o1 s1] eqn:Hv.
  destruct (verify_outcomes token st o1 s1 Hkeys Hdecode Hv)
    as [[user ->] | [-> | [e [-> He]]]].
  - intro H. inversion H. eauto.
  - simpl. unfold raise. intro H. inversion H. auto.
  - rewrite He. unfold bind, raise, logger_error. intro H. inversion H. auto.
Qed.

(** *** Token exchange *)

(** X10.  [exchange_descope_token] hides every failure behind one error.
    It returns a bearer token valid for 86400 seconds, or raises
    HTTP 401 "Token exchange failed" after logging the cause: a refused or
    undecodable token (whose own 401 "Invalid token" is replaced), an
    unreachable provider, malformed claims and an encoder failure all
    reach the caller as that same error. *)
Theorem X10_exchange_masks_failures token (st : State) o st' :
  exchange_descope_token token st = (o, st') ->
  (exists issued,
      o = Return issued
      /\ token_type issued = "bearer" /\ expires_in issued = 86400)
  \/ (o = Raise (HTTPException 401 "Token exchange failed")
      /\ exists before e,
           log W st'
             = (before
                  ++ [("Token exchange failed: "
                         ++ exc_text http_exception_str e)%string])%list).
Proof.
  unfold Mcp.exchange_descope_token, try_except.
  unfold bind at 1.
  destruct (verify_descope_token token st) as [[c|e] s1].
  - unfold bind at 1. rewrite lift_now. unfold bind at 1. rewrite lift_now.
    cbv zeta. unfold bind at 1.
    destruct (jwt_encode _ _ _) as [tok|e].
    + unfold ret. intro H. inversion H. left. eexists. repeat split.
    + unfold bind, logger_error, raise. intro H. inversion H. right.
      split; [reflexivity|]. simpl. eauto.
  - unfold bind, logger_error, raise. intro H. inversion H. right.
    split; [reflexivity|]. simpl. eauto.
Qed.

(** X11.  The token issued by the exchange verifies to the same claims.
    When verification of the external token gives claims [c], the exchange
    signs [c]'s user id, email and scopes with an expiry 24 hours after its
    second clock reading; if the provider accepts the issued token and the
    decoder reads that payload back, [get_current_user] on the issued token
    returns the user id, email and scopes of [c]. *)
Theorem X11_exchanged_token_verifies token (st : State) c st1 tok x w1 w2 :
  verify_descope_token token st = (Return c, st1) ->
  let issued_at := fst (utcnow (world W st1)) in
  let wa := snd (utcnow (world W st1)) in
  let wb := snd (utcnow wa) in
  let payload :=
    {| claim_sub := user_id c; claim_email := email c;
       claim_permissions := scopes c; claim_iat := issued_at;
       claim_exp := fst (utcnow wa) + hours 24 |} in
  jwt_encode payload (JWT_SECRET_KEY config) JWT_ALGORITHM = Return tok ->
  descope_get_keys (DESCOPE_DOMAIN config ++ "/keys") tok wb = (Return 200, w1) ->
  jwt_decode tok (JWT_SECRET_KEY config) JWT_ALGORITHM w1
    = (Return (signed_payload payload x), w2) ->
  let st2 := {| world := wb; log := log W st1 |} in
  exchange_descope_token token st
    = (Return {| access_token := tok; token_type := "bearer";
                 expires_in := 86400 |}, st2)
  /\ get_current_user tok st2
     = (Return {| user_id := user_id c; email := email c; scopes := scopes c;
                  exp := x |},
        {| world := w2; log := log W st1 |}).
Proof.
  intros Hv issued_at wa wb payload Henc Hget Hdec st2. split.
  - unfold Mcp.exchange_descope_token, try_except.
    unfold bind at 1. rewrite Hv.
    unfold bind at 1. rewrite lift_now. unfold bind at 1. rewrite lift_now.
    cbv zeta. unfold bind at 1. simpl world.
    fold issued_at. fold wa. unfold JWT_EXPIRATION_HOURS. fold payload.
    rewrite Henc. reflexivity.
  - unfold Mcp.get_current_user, Mcp.verify_descope_token, try_except, bind, lift.
    simpl world. rewrite Hget. simpl. rewrite Hdec. reflexivity.
Qed.

(** *** Adapters and search *)

(** A one-element list cut at [limit]. *)
Lemma slice_to_singleton {A : Type} (x : A) (limit : Z) :
  Py.slice_to [x] limit = if 1 <=? limit then [x] else [].
Proof.
  unfold Py.slice_to.
  destruct (Z.leb_spec 0 limit), (Z.leb_spec 1 limit); try lia.
  - destruct (Z.to_nat limit) eqn:E; [lia|]. simpl. now rewrite firstn_nil.
  - replace limit with 0 by lia. reflexivity.
  - simpl length. replace (Z.to_nat (Z.of_nat 1 + limit)) with 0%nat by lia.
    reflexivity.
Qed.

(** X12.  The mock adapters honour the cap, also a cap that is zero or
    negative: each reads the clock once, never raises, and returns its one
    document when [limit >= 1] and nothing otherwise, so never more than
    one result and never more than a non-negative [limit]. *)
Theorem X12_mock_adapters_honour_limit q tok limit w :
  exists drive_doc notion_page,
    mock_search_google_drive W utcnow q tok limit w
      = (Return (if 1 <=? limit then [drive_doc] else []), snd (utcnow w))
    /\ mock_search_notion W utcnow q tok limit w
       = (Return (if 1 <=? limit then [notion_page] else []), snd (utcnow w))
    /\ source drive_doc = "google_drive"
    /\ source notion_page = "notion"
    /\ last_modified drive_doc = Some (fst (utcnow w) - days 1)
    /\ last_modified notion_page = Some (fst (utcnow w) - days 2).
Proof.
  unfold mock_search_google_drive, mock_search_notion, bind, now, ret.
  destruct (utcnow w) as [t w']. simpl fst. simpl snd.
  rewrite !slice_to_singleton. eexists. eexists. repeat split.
Qed.

Lemma mock_adapter_returns src adapter q tok limit w :
  matching_adapter W (mock_service W utcnow) src = Some adapter ->
  exists doc,
    adapter q tok limit w
      = (Return (if 1 <=? limit then [doc] else []), snd (utcnow w))
    /\ source doc = src.
Proof.
  unfold matching_adapter.
  destruct (String.eqb_spec src "google_drive") as [-> | _].
  - intro H. inversion H. subst adapter. simpl.
    unfold mock_search_google_drive, bind, now, ret.
    destruct (utcnow w) as [t w']. rewrite slice_to_singleton.
    eexists. split; reflexivity.
  - destruct (String.eqb_spec src "notion") as [-> | _]; [|discriminate].
    intro H. inversion H. subst adapter. simpl.
    unfold mock_search_notion, bind, now, ret.
    destruct (utcnow w) as [t w']. rewrite slice_to_singleton.
    eexists. split; reflexivity.
Qed.

Lemma matching_adapter_recognized self src :
  recognized src = true ->
  exists adapter, matching_adapter W self src = Some adapter.
Proof.
  unfold recognized, matching_adapter.
  destruct (src =? "google_drive")%string; [eauto|].
  destruct (src =? "notion")%string; [eauto | discriminate].
Qed.

(** With the mock service, each searched source of the list adds one
    result when the cap is positive, and nothing otherwise. *)
Lemma mock_arrivals_length request user (srcs : list string) :
  forall w,
    length (fst (arrivals (mock_service W utcnow) request user srcs w))
      = if 1 <=? max_results request
        then length (filter (searched user) srcs) else 0%nat.
Proof.
  induction srcs as [|src rest IH]; intro w.
  - simpl. now destruct (1 <=? max_results request).
  - cbn [Spec.arrivals filter]. unfold searched at 1.
    destruct (recognized src) eqn:Hrec.
    + destruct (matching_adapter_recognized (mock_service W utcnow) src Hrec)
        as [adapter Ha].
      rewrite Ha. cbn [andb].
      destruct (Py.contains _ (scopes user)); [|apply IH].
      destruct (mock_adapter_returns src adapter (query request)
                  (dict_get user_tokens src) (max_results request) w Ha)
        as [doc [-> _]].
      specialize (IH (snd (utcnow w))).
      destruct (arrivals (mock_service W utcnow) request user rest (snd (utcnow w)))
        as [more w''].
      cbn [fst] in *. rewrite length_app, IH.
      destruct (1 <=? max_results request); reflexivity.
    + rewrite (matching_adapter_unrecognized W _ src Hrec). cbn [andb]. apply IH.
Qed.

(** X13.  With the mock service the number of results is
    [min(max_results, n)], where [n] counts the entries of the source list
    that name an adapter and whose scope the user holds; an entry listed
    twice is searched twice and counts twice.  With [max_results <= 0]
    there is no result at all. *)
Theorem X13_mock_result_count request user (st : State) :
  exists resp st',
    search (mock_service W utcnow) request user st = (Return resp, st')
    /\ length (results resp)
       = if 1 <=? max_results request
         then Nat.min (Z.to_nat (max_results request))
                (length (filter (searched user) (sources request)))
         else 0%nat.
Proof.
  rewrite search_returns. cbv zeta.
  eexists. eexists. split; [reflexivity|]. simpl results.
  pose proof (mock_arrivals_length request user (sources request)
                (snd (utcnow (world W st)))) as Hlen.
  destruct (Z.leb_spec 1 (max_results request)) as [Hk | Hk].
  - rewrite slice_to_nonneg by lia.
    now rewrite length_firstn, sort_desc_length, Hlen.
  - destruct (slice_to_prefix
                (Py.sort_desc score
                   (fst (arrivals (mock_service W utcnow) request user
                           (sources request) (snd (utcnow (world W st))))))
                (max_results request)) as [n ->].
    rewrite length_firstn, sort_desc_length, Hlen. apply Nat.min_0_r.
Qed.

(** X14.  Under the cap nothing is lost.  When the sources delivered at
    most [max_results] results, the response holds all of them, each as
    often as it arrived: the results are a rearrangement of the arrivals. *)
Theorem X14_nothing_dropped_under_cap self request user (st : State) :
  let combined :=
    fst (arrivals self request user (sources request)
           (snd (utcnow (world W st)))) in
  Z.of_nat (length combined) <= max_results request ->
  exists resp st',
    search self request user st = (Return resp, st')
    /\ Permutation combined (results resp)
    /\ total_count resp = Z.of_nat (length combined).
Proof.
  intros combined Hcap. rewrite search_returns. cbv zeta. fold combined.
  eexists. eexists. split; [reflexivity|]. simpl.
  rewrite slice_to_nonneg by lia.
  rewrite firstn_all2 by (rewrite sort_desc_length; lia).
  split; [apply sort_desc_perm | now rewrite sort_desc_length].
Qed.

(** The sources that reach an adapter are decided by the two per-source
    scopes. *)
Lemma arrivals_same_grants self r1 r2 u1 u2 (srcs : list string) :
  query r1 = query r2 -> max_results r1 = max_results r2 ->
  same_grants u1 u2 ->
  forall w,
    arrivals self r1 u1 srcs w = arrivals self r2 u2 srcs w
    /\ failures self r1 u1 srcs w = failures self r2 u2 srcs w.
Proof.
  intros Hq Hk [Hg Hn]. induction srcs as [|src rest IH]; intro w;
    cbn [Spec.arrivals Spec.failures]; [now split|].
  unfold matching_adapter.
  destruct (String.eqb_spec src "google_drive") as [-> | _].
  - simpl ("workplace:read:" ++ _)%string. rewrite Hg, Hq, Hk.
    destruct (Py.contains "workplace:read:google_drive" (scopes u2));
      [|apply IH].
    destruct (search_google_drive W self _ _ _ w) as [o w'].
    destruct (IH w') as [-> ->]. now split.
  - destruct (String.eqb_spec src "notion") as [-> | _]; [|apply IH].
    simpl ("workplace:read:" ++ _)%string. rewrite Hn, Hq, Hk.
    destruct (Py.contains "workplace:read:notion" (scopes u2)); [|apply IH].
    destruct (search_notion W self _ _ _ w) as [o w'].
    destruct (IH w') as [-> ->]. now split.
Qed.

(** X15.  What [search] does not read.  Its outcome and its effects are
    decided by the query, the source list, the cap and the membership of
    the two scopes [workplace:read:google_drive] and
    [workplace:read:notion]: the [include_content] flag of the request and
    the identity of the user (id, email, expiry, any other scope) change
    nothing. *)
Theorem X15_search_ignores_identity_and_flag self r1 r2 u1 u2 (st : State) :
  query r1 = query r2 ->
  sources r1 = sources r2 ->
  max_results r1 = max_results r2 ->
  same_grants u1 u2 ->
  search self r1 u1 st = search self r2 u2 st.
Proof.
  intros Hq Hs Hk Hg. rewrite !search_returns. cbv zeta.
  rewrite <- Hs.
  destruct (arrivals_same_grants self r1 r2 u1 u2 (sources r1) Hq Hk Hg
              (snd (utcnow (world W st)))) as [-> ->].
  now rewrite Hq, Hk.
Qed.

(** X16.  With the mock service every result comes from a source that the
    request names and for which the user holds the per-source scope. *)
Theorem X16_results_from_granted_sources request user (st : State) :
  exists resp st',
    search (mock_service W utcnow) request user st = (Return resp, st')
    /\ forall r,
         In r (results resp) ->
         In (source r) (sources request)
         /\ Py.contains ("workplace:read:" ++ source r) (scopes user) = true.
Proof.
  rewrite search_returns. cbv zeta.
  eexists. eexists. split; [reflexivity|]. simpl results.
  intros r Hin. apply slice_sort_In in Hin.
  destruct (arrivals_returned W (mock_service W utcnow) request user r
              (sources request) _ Hin)
    as (src & adapter & w0 & found & w1 & Hsrc & Ha & Hc & Hcall & Hr).
  destruct (mock_adapter_returns src adapter (query request)
              (dict_get user_tokens src) (max_results request) w0 Ha)
    as [doc [Hrun Hdoc]].
  rewrite Hrun in Hcall. inversion Hcall; subst found.
  destruct (1 <=? max_results request); [|contradiction].
  destruct Hr as [<- | []]. rewrite Hdoc. now split.
Qed.

(** X17.  Without a per-source scope no backend is reached.  For a user
    who holds neither [workplace:read:google_drive] nor
    [workplace:read:notion], [search] returns the empty response and its
    only effect on the outside world is its two clock readings: no adapter
    is invoked, whatever sources are named, and nothing is logged. *)
Theorem X17_no_scope_no_backend_call self request user (st : State) :
  Py.contains "workplace:read:google_drive" (scopes user) = false ->
  Py.contains "workplace:read:notion" (scopes user) = false ->
  let w1 := snd (utcnow (world W st)) in
  search self request user st
    = (Return {| results := []; total_count := 0;
                 response_query := query request;
                 response_sources := sources request;
                 execution_time_ms :=
                   elapsed_ms (fst (utcnow (world W st))) (fst (utcnow w1)) |},
       {| world := snd (utcnow w1); log := log W st |}).
Proof.
  intros Hg Hn w1. rewrite search_returns. cbv zeta. fold w1.
  assert (Hnone : forall srcs w,
             arrivals self request user srcs w = ([], w)
             /\ failures self request user srcs w = []).
  { induction srcs as [|src rest IH]; intro w;
      cbn [Spec.arrivals Spec.failures]; [now split|].
    unfold matching_adapter.
    destruct (String.eqb_spec src "google_drive") as [-> | _].
    - simpl ("workplace:read:" ++ _)%string. rewrite Hg. apply IH.
    - destruct (String.eqb_spec src "notion") as [-> | _]; [|apply IH].
      simpl ("workplace:read:" ++ _)%string. rewrite Hn. apply IH. }
  destruct (Hnone (sources request) w1) as [-> ->].
  simpl. rewrite slice_to_nil, app_nil_r. reflexivity.
Qed.

End MoreFacts.

(* ===================================================================== *)
(** ** The further properties on concrete scenarios                       *)
(* ===================================================================== *)

Section MoreScenarios.
Import Scenario.

Local Abbreviation run_call_tool :=
  (call_tool nat tick post_ok wall_ms dumps cfg (mock_service nat tick)).
Local Abbreviation run_search := (search nat tick wall_ms).
Local Abbreviation run_recorded dumps_with :=
  (call_tool Recording.World Recording.tick Recording.post_ok wall_ms dumps_with
     cfg (mock_service Recording.World Recording.tick)
     "workplace_search" budget_call both_reader Recording.st0).
Local Abbreviation run_exchange provider decoder encoder :=
  (exchange_descope_token nat tick provider decoder encoder Recording.str_http
     cfg "token" st0).

Lemma X2_unknown_tool_not_found_witness :
  "calendar_search" <> "workplace_search"
  /\ exists st',
       run_call_tool "calendar_search" budget_call both_reader st0
         = (Raise (HTTPException 404 "Tool 'calendar_search' not found"), st').
Proof.
  assert (H : "calendar_search" <> "workplace_search") by discriminate.
  split; [exact H|].
  apply (X2_unknown_tool_not_found nat tick post_ok wall_ms dumps cfg
           (mock_service nat tick) "calendar_search" budget_call both_reader
           st0 H).
Defined.

Lemma X3_invalid_arguments_are_500_witness :
  Py.any (fun scope => Py.startswith scope "workplace:read") (scopes both_reader)
    = true
  /\ (exists k, arg_max_results (arguments Recording.oversized_call) = Some k
                /\ ~ 1 <= k <= 50)
  /\ exists st' before msg,
       run_call_tool "workplace_search" Recording.oversized_call both_reader st0
         = (Raise (HTTPException 500 "Internal server error"), st')
       /\ log nat st' = (before ++ [("Tool execution error: " ++ msg)%string])%list.
Proof.
  assert (Hbad : exists k,
             arg_max_results (arguments Recording.oversized_call) = Some k
             /\ ~ 1 <= k <= 50).
  { exists 51. split; [reflexivity | lia]. }
  split; [reflexivity|]. split; [exact Hbad|].
  apply (X3_invalid_arguments_are_500 nat tick post_ok wall_ms dumps cfg
           (mock_service nat tick) Recording.oversized_call both_reader st0
           eq_refl (or_intror Hbad)).
Defined.

Lemma X4_call_tool_outcome_witness :
  Py.any (fun scope => Py.startswith scope "workplace:read") (scopes broad_reader)
    = true
  /\ WorkplaceSearchRequest_init (arguments budget_call) st0
     = (Return (budget ["google_drive"; "notion"] 10), st0)
  /\ fst (run_call_tool "workplace_search" budget_call broad_reader st0)
     = Return {| response_content :=
                   [ TextBlock "Found 0 results for 'budget'";
                     ResourceBlock "workplace://search/budget" "Search Results"
                       "application/json" "{...}" ];
                 isError := false |}.
Proof.
  assert (Hinit : WorkplaceSearchRequest_init (arguments budget_call) st0
                  = (Return (budget ["google_drive"; "notion"] 10), st0))
    by reflexivity.
  split; [reflexivity|]. split; [exact Hinit|].
  destruct (X4_call_tool_outcome nat tick post_ok wall_ms dumps cfg
              (mock_service nat tick) budget_call broad_reader
              (budget ["google_drive"; "notion"] 10) st0 eq_refl Hinit)
    as [resp [Hsearch [_ [_ Hcall]]]].
  rewrite Hcall. vm_compute in Hsearch. injection Hsearch as <-. reflexivity.
Defined.

(** A successful call sends the request event and the success event; with
    an encoder that fails, the same call ends with a failure event sent
    after the success event. *)
Lemma X5_audit_trail_witness :
  (exists first rest,
      Recording.posted (world _ (snd (run_recorded Recording.dumps_ok)))
        = (Recording.posted (world _ Recording.st0) ++ first :: rest)%list
      /\ request_event (user_id both_reader) "workplace_search"
           (arguments budget_call) first
      /\ exists done, rest = [done] /\ success_event done)
  /\ (exists first rest,
         Recording.posted (world _ (snd (run_recorded Recording.dumps_fails)))
           = (Recording.posted (world _ Recording.st0) ++ first :: rest)%list
         /\ request_event (user_id both_reader) "workplace_search"
              (arguments budget_call) first
         /\ exists middle last,
              rest = (middle ++ [last])%list
              /\ failure_event last
              /\ (middle = []
                  \/ exists done, middle = [done] /\ success_event done)).
Proof.
  assert (Hpost : forall url key ev w,
             Recording.posted (snd (Recording.post_ok url key ev w))
               = (Recording.posted w ++ [ev])%list) by reflexivity.
  assert (Hclock : forall w,
             Recording.posted (snd (Recording.tick w)) = Recording.posted w)
    by reflexivity.
  assert (Hdrive : forall q t k w,
             Recording.posted
               (snd (search_google_drive _
                       (mock_service Recording.World Recording.tick) q t k w))
               = Recording.posted w) by reflexivity.
  assert (Hnotion : forall q t k w,
             Recording.posted
               (snd (search_notion _
                       (mock_service Recording.World Recording.tick) q t k w))
               = Recording.posted w) by reflexivity.
  split.
  - apply (X5_audit_trail Recording.World Recording.tick Recording.post_ok
             wall_ms Recording.dumps_ok cfg Recording.posted
             (mock_service Recording.World Recording.tick)
             Hpost Hclock Hdrive Hnotion
             "workplace_search" budget_call both_reader Recording.st0
             (fst (run_recorded Recording.dumps_ok))
             (snd (run_recorded Recording.dumps_ok))).
    reflexivity.
  - apply (X5_audit_trail Recording.World Recording.tick Recording.post_ok
             wall_ms Recording.dumps_fails cfg Recording.posted
             (mock_service Recording.World Recording.tick)
             Hpost Hclock Hdrive Hnotion
             "workplace_search" budget_call both_reader Recording.st0
             (fst (run_recorded Recording.dumps_fails))
             (snd (run_recorded Recording.dumps_fails))).
    reflexivity.
Defined.

(** The broad scope is let through by [call_tool] although [list_tools]
    shows it no tool: the converse of X6 does not hold. *)
Example unlisted_tool_is_callable :
  list_tools broad_reader = []
  /\ exists r, fst (run_call_tool "workplace_search" budget_call broad_reader st0)
               = Return r.
Proof. split; [reflexivity | eexists; reflexivity]. Qed.

Lemma X6_listed_tools_are_callable_witness :
  In Recording.search_tool (list_tools drive_reader)
  /\ Py.any (fun scope => Py.startswith scope "workplace:read:")
       (scopes drive_reader) = true
  /\ ((exists r,
          fst (run_call_tool (name Recording.search_tool) budget_call
                 drive_reader st0) = Return r)
      \/ fst (run_call_tool (name Recording.search_tool) budget_call
                drive_reader st0)
         = Raise (HTTPException 500 "Internal server error")).
Proof.
  assert (Hin : In Recording.search_tool (list_tools drive_reader))
    by (simpl; now left).
  split; [exact Hin|].
  apply (X6_listed_tools_are_callable nat tick post_ok wall_ms dumps cfg
           (mock_service nat tick) Recording.search_tool budget_call
           drive_reader st0 _
           (snd (run_call_tool (name Recording.search_tool) budget_call
                   drive_reader st0)) Hin).
  reflexivity.
Defined.

Lemma X7_schema_matches_validation_witness :
  In Recording.search_tool MCP_TOOLS
  /\ schema_entry Recording.search_tool "max_results" "maximum" = Some (JInt 50)
  /\ exists lo hi,
       schema_entry Recording.search_tool "max_results" "minimum" = Some (JInt lo)
       /\ schema_entry Recording.search_tool "max_results" "maximum" = Some (JInt hi)
       /\ ((exists r,
               WorkplaceSearchRequest_init
                 {| arg_query := Some "budget"; arg_sources := None;
                    arg_max_results := Some 50; arg_include_content := None |} st0
                 = (Return r, st0))
           <-> lo <= 50 <= hi).
Proof.
  assert (Hin : In Recording.search_tool MCP_TOOLS) by (simpl; now left).
  split; [exact Hin|]. split; [reflexivity|].
  destruct (X7_schema_matches_validation Recording.search_tool Hin)
    as (lo & hi & k0 & srcs0 & ic0 & Hlo & Hhi & _ & _ & _ & _ & Hall).
  exists lo, hi. split; [exact Hlo|]. split; [exact Hhi|].
  apply (Hall (State nat) st0 "budget" None 50 None).
Defined.

Lemma X8_token_claims_witness :
  provider_answers 200 (DESCOPE_DOMAIN cfg ++ "/keys") "token" 0%nat
    = (Return 200, 0%nat)
  /\ Recording.decode_no_permissions "token" (JWT_SECRET_KEY cfg) JWT_ALGORITHM 0%nat
     = (Return {| sub := Some "u-1"; payload_email := Some "user@example.com";
                  permissions := None; payload_exp := Some 1893456000 |}, 0%nat)
  /\ get_current_user nat (provider_answers 200) Recording.decode_no_permissions
       cfg "token" st0 = (Return (claims []), st0)
  /\ list_tools (claims []) = []
  /\ forbidden (fst (run_call_tool "workplace_search" budget_call (claims []) st0)).
Proof.
  split; [reflexivity|]. split; [reflexivity|].
  destruct (X8_token_claims nat tick (provider_answers 200)
              Recording.decode_no_permissions post_ok wall_ms dumps cfg
              "token" st0 0%nat 0%nat "u-1" "user@example.com" None 1893456000
              eq_refl eq_refl) as [Hauth Hnone].
  split; [exact Hauth|].
  destruct (Hnone eq_refl) as [Hlist Hcall].
  split; [exact Hlist|].
  apply (Hcall (mock_service nat tick) budget_call st0).
Defined.

Lemma X9_authentication_fails_with_401_witness :
  (forall url tok w e w',
      provider_unreachable url tok w = (Raise e, w') -> is_HTTPException e = false)
  /\ (forall tok key alg w e w',
         decode_accepts tok key alg w = (Raise e, w') -> is_HTTPException e = false)
  /\ ((exists user,
          fst (get_current_user nat provider_unreachable decode_accepts cfg
                 "token" st0) = Return user)
      \/ fst (get_current_user nat provider_unreachable decode_accepts cfg
                "token" st0) = Raise (HTTPException 401 "Invalid token")
      \/ fst (get_current_user nat provider_unreachable decode_accepts cfg
                "token" st0) = Raise (HTTPException 401 "Authentication failed")).
Proof.
  assert (Hkeys : forall url tok w e w',
             provider_unreachable url tok w = (Raise e, w') ->
             is_HTTPException e = false).
  { intros url tok w e w' H. injection H as <- _. reflexivity. }
  assert (Hdecode : forall tok key alg w e w',
             decode_accepts tok key alg w = (Raise e, w') ->
             is_HTTPException e = false).
  { intros tok key alg w e w' H. discriminate H. }
  split; [exact Hkeys|]. split; [exact Hdecode|].
  apply (X9_authentication_fails_with_401 nat provider_unreachable decode_accepts
           cfg "token" st0 _
           (snd (get_current_user nat provider_unreachable decode_accepts cfg
                   "token" st0)) Hkeys Hdecode).
  reflexivity.
Defined.

(** A refused token and a failing encoder give the same error. *)
Lemma X10_exchange_masks_failures_witness :
  fst (run_exchange (provider_answers 401) decode_accepts Recording.encode_ok)
    = Raise (HTTPException 401 "Token exchange failed")
  /\ fst (run_exchange (provider_answers 200) decode_accepts Recording.encode_fails)
     = Raise (HTTPException 401 "Token exchange failed")
  /\ ((exists issued,
          fst (run_exchange (provider_answers 200) decode_accepts
                 Recording.encode_ok) = Return issued
          /\ token_type issued = "bearer" /\ expires_in issued = 86400)
      \/ (fst (run_exchange (provider_answers 200) decode_accepts
                 Recording.encode_ok)
            = Raise (HTTPException 401 "Token exchange failed")
          /\ exists before e,
               log nat (snd (run_exchange (provider_answers 200) decode_accepts
                               Recording.encode_ok))
                 = (before
                      ++ [("Token exchange failed: "
                             ++ exc_text Recording.str_http e)%string])%list)).
Proof.
  split; [reflexivity|]. split; [reflexivity|].
  apply (X10_exchange_masks_failures nat tick (provider_answers 200)
           decode_accepts Recording.encode_ok Recording.str_http cfg "token" st0
           _ (snd (run_exchange (provider_answers 200) decode_accepts
                     Recording.encode_ok))).
  reflexivity.
Defined.

Lemma X11_exchanged_token_verifies_witness :
  verify_descope_token nat (provider_answers 200) decode_accepts cfg "token" st0
    = (Return drive_reader, st0)
  /\ run_exchange (provider_answers 200) decode_accepts Recording.encode_ok
     = (Return {| access_token := "internal-token"; token_type := "bearer";
                  expires_in := 86400 |},
        {| world := 2%nat; log := [] |})
  /\ get_current_user nat (provider_answers 200) decode_accepts cfg
       "internal-token" {| world := 2%nat; log := [] |}
     = (Return drive_reader, {| world := 2%nat; log := [] |}).
Proof.
  assert (Hv : verify_descope_token nat (provider_answers 200) decode_accepts cfg
                 "token" st0 = (Return drive_reader, st0)) by reflexivity.
  split; [exact Hv|].
  apply (X11_exchanged_token_verifies nat tick (provider_answers 200)
           decode_accepts Recording.encode_ok Recording.str_http cfg "token" st0
           drive_reader st0 "internal-token" 1893456000 2%nat 2%nat Hv);
    reflexivity.
Defined.

Lemma X14_nothing_dropped_under_cap_witness :
  Z.of_nat (length (fst (arrivals nat (mock_service nat tick)
                           (budget ["google_drive"; "notion"] 10) both_reader
                           ["google_drive"; "notion"] 1%nat))) <= 10
  /\ exists resp st',
       run_search (mock_service nat tick) (budget ["google_drive"; "notion"] 10)
         both_reader st0 = (Return resp, st')
       /\ length (results resp) = 2%nat
       /\ total_count resp = 2.
Proof.
  assert (Hcap : Z.of_nat (length (fst (arrivals nat (mock_service nat tick)
                              (budget ["google_drive"; "notion"] 10) both_reader
                              ["google_drive"; "notion"] 1%nat))) <= 10)
    by (simpl; lia).
  split; [exact Hcap|].
  destruct (X14_nothing_dropped_under_cap nat tick wall_ms (mock_service nat tick)
              (budget ["google_drive"; "notion"] 10) both_reader st0 Hcap)
    as [resp [st' [Hrun [Hperm Hcount]]]].
  exists resp, st'. split; [exact Hrun|]. split; [|exact Hcount].
  symmetry. apply (Permutation_length Hperm).
Defined.

Lemma X15_search_ignores_identity_and_flag_witness :
  same_grants drive_reader Recording.other_drive_reader
  /\ run_search (mock_service nat tick) (budget ["google_drive"; "notion"] 10)
       drive_reader st0
     = run_search (mock_service nat tick)
         {| query := "budget"; sources := ["google_drive"; "notion"];
            max_results := 10; include_content := false |}
         Recording.other_drive_reader st0.
Proof.
  assert (Hg : same_grants drive_reader Recording.other_drive_reader)
    by (split; reflexivity).
  split; [exact Hg|].
  apply (X15_search_ignores_identity_and_flag nat tick wall_ms
           (mock_service nat tick) (budget ["google_drive"; "notion"] 10)
           {| query := "budget"; sources := ["google_drive"; "notion"];
              max_results := 10; include_content := false |}
           drive_reader Recording.other_drive_reader st0
           eq_refl eq_refl eq_refl Hg).
Defined.

(** The Google Drive adapter of [drive_down] would raise and leave a log
    line; without the scope it is not called. *)
Lemma X17_no_scope_no_backend_call_witness :
  Py.contains "workplace:read:google_drive" (scopes broad_reader) = false
  /\ Py.contains "workplace:read:notion" (scopes broad_reader) = false
  /\ run_search drive_down (budget ["google_drive"; "notion"] 10) broad_reader st0
     = (Return {| results := []; total_count := 0; response_query := "budget";
                  response_sources := ["google_drive"; "notion"];
                  execution_time_ms := 1 |},
        {| world := 2%nat; log := [] |}).
Proof.
  split; [reflexivity|]. split; [reflexivity|].
  apply (X17_no_scope_no_backend_call nat tick wall_ms drive_down
           (budget ["google_drive"; "notion"] 10) broad_reader st0
           eq_refl eq_refl).
Defined.

End MoreScenarios.
